(** * Job, suite and asset resolution of the data-quality orchestrator

    A shallow embedding of [app/utils/selector.py],
    [app/utils/job_selector_factory.py], [app/models/*.py] and of the
    driver in [app/main.py], followed by the properties of the
    resolution and run-assembly workflow.

    Conventions of the embedding:
    - a loaded YAML document is a value of [yaml];
    - a Python exception is a value of [exn], one constructor per raise
      site or per built-in exception the code can trigger;
    - code that may raise returns a [result];
    - the file system is read through two primitives, [fs_open] (the
      composition [yaml.safe_load(open(path))]) and [fs_walk]
      ([os.walk(top)]);
    - log output is not part of the model. *)

From Stdlib Require Import Ascii String ZArith.
From stdpp Require Import base strings list option gmap.

Set Warnings "-register-all".

Open Scope string_scope.
Open Scope list_scope.

(** ** Strings: the [str] methods the code uses *)

Module Str.

(** [s.split(sep)] for a one-character separator: every occurrence of
    [sep] cuts, empty pieces are kept, and the result is never empty. *)
Fixpoint split (sep : ascii) (s : string) : list string :=
  match s with
  | EmptyString => [EmptyString]
  | String c s' =>
      if Ascii.eqb c sep then EmptyString :: split sep s'
      else match split sep s' with
           | [] => [String c EmptyString]
           | w :: ws => String c w :: ws
           end
  end.

(** Number of occurrences of a character. *)
Fixpoint count (sep : ascii) (s : string) : nat :=
  match s with
  | EmptyString => 0
  | String c s' => (if Ascii.eqb c sep then 1 else 0) + count sep s'
  end.

(** [s.startswith(p)] *)
Definition startswith (p s : string) : bool := String.prefix p s.

(** [s.endswith(p)]: [s] is [p], or the rest of [s] after its first
    character ends with [p]. *)
Fixpoint endswith (p s : string) : bool :=
  String.eqb s p ||
  match s with
  | EmptyString => false
  | String _ s' => endswith p s'
  end.

(** The characters of a string, as one-character strings (what
    iterating over a [str] yields). *)
Fixpoint chars (s : string) : list string :=
  match s with
  | EmptyString => []
  | String c s' => String c EmptyString :: chars s'
  end.

End Str.

(** ** [os.path.join] (posixpath) *)

Module Path.

(** One step of the loop of [posixpath.join]: an absolute component
    discards what was joined so far; a separator is inserted unless
    the path is empty or already ends with one. *)
Definition join2 (path b : string) : string :=
  if Str.startswith "/" b then b
  else if String.eqb path "" || Str.endswith "/" path then path +:+ b
  else path +:+ "/" +:+ b.

Definition join (a : string) (p : list string) : string :=
  fold_left join2 p a.

End Path.

(** ** Loaded YAML documents *)

(** The values [yaml.safe_load] builds for the resources: [None],
    booleans, integers, strings, lists, and dicts with string keys.  A
    dict is kept as the list of its bindings in document order; its keys
    are pairwise distinct. *)
Inductive yaml : Type :=
| YNull
| YBool (b : bool)
| YInt (z : Z)
| YStr (s : string)
| YList (l : list yaml)
| YMap (m : list (string * yaml)).

(** Lookup of a key among the bindings of a dict. *)
Fixpoint assoc (k : string) (m : list (string * yaml)) : option yaml :=
  match m with
  | [] => None
  | (k', v) :: m' => if String.eqb k k' then Some v else assoc k m'
  end.

(** ** Exceptions *)

Inductive exn : Type :=
| UnpackError (n : nat)
    (* ValueError: "not enough values to unpack" / "too many values to
       unpack (expected 2)", raised by [a, b = fname.split(".")] on a
       list of [n] pieces *)
| FileNotFoundError (path : string)
    (* raised by [open(path)] *)
| NoJobForFilename (fname : string)
    (* ValueError(f"No job found for filename: {fname}") *)
| NoJobForTags (tags : list string)
    (* ValueError(f"No job found for tags: {tags}") *)
| InvalidArgumentType
    (* ValueError("Invalid argument type. Expected str or List[str].") *)
| AssetNotFound (fname : string)
    (* Exception(f"Asset {fname} is not found") *)
| KeyError (key : string)
| TypeError
| AttributeError
| ValidationError
    (* pydantic's error on a field of the wrong type *)
| NoSelector
    (* Exception("No job name or tags provided") *)
| ExpectationsNotMet
    (* Exception("Expectations are not met") *)
| RuntimeFailure (msg : string)
    (* an error raised by the external validation runtime *)
| Wrapped (e : exn).
    (* Exception("ERROR: ", error), raised by the handler of the driver *)

(** The error kinds of the specification's taxonomy, and the kind each
    exception of the code stands for.  Exceptions the taxonomy does not
    name are [OtherError]. *)
Inductive error_kind : Type :=
| MalformedNameError
| ResourceNotFoundError
| AssetNotFoundError
| NoMatchError
| InvalidSelectorError
| MissingSelectorError
| ModelValidationError
| OtherError.

Fixpoint kind_of (e : exn) : error_kind :=
  match e with
  | UnpackError _ => MalformedNameError
  | FileNotFoundError _ => ResourceNotFoundError
  | NoJobForFilename _ => ResourceNotFoundError
  | NoJobForTags _ => NoMatchError
  | InvalidArgumentType => InvalidSelectorError
  | AssetNotFound _ => AssetNotFoundError
  | ValidationError => ModelValidationError
  | NoSelector => MissingSelectorError
  | Wrapped e' => kind_of e'
  | KeyError _ | TypeError | AttributeError
  | ExpectationsNotMet | RuntimeFailure _ => OtherError
  end.

(** ** Results *)

Inductive result (A : Type) : Type :=
| Ok (a : A)
| Raise (e : exn).
Arguments Ok {A} a.
Arguments Raise {A} e.

Global Instance result_ret : MRet result := fun A a => Ok a.
Global Instance result_bind : MBind result := fun A B f m =>
  match m with
  | Ok a => f a
  | Raise e => Raise e
  end.

Global Instance result_fmap : FMap result := fun A B f m =>
  match m with
  | Ok a => Ok (f a)
  | Raise e => Raise e
  end.

Definition is_ok {A} (r : result A) : bool :=
  match r with Ok _ => true | Raise _ => false end.

(** ** Python primitives on loaded values *)

Module Py.

(** Truth value of [if v:]. *)
Definition truthy (v : yaml) : bool :=
  match v with
  | YNull => false
  | YBool b => b
  | YInt z => negb (z =? 0)%Z
  | YStr s => negb (String.eqb s "")
  | YList l => match l with [] => false | _ => true end
  | YMap m => match m with [] => false | _ => true end
  end.

(** [v.get(k)]: only a dict has the method; a missing key gives
    [None]. *)
Definition get (v : yaml) (k : string) : result yaml :=
  match v with
  | YMap m => Ok (default YNull (assoc k m))
  | _ => Raise AttributeError
  end.

(** [v[k]] with a string key: [KeyError] on a dict without the key,
    [TypeError] on any other value. *)
Definition getitem (v : yaml) (k : string) : result yaml :=
  match v with
  | YMap m => match assoc k m with
              | Some x => Ok x
              | None => Raise (KeyError k)
              end
  | _ => Raise TypeError
  end.

(** [for x in v]: the items a loop visits. A dict yields its keys, a
    string its characters; other scalars are not iterable. *)
Definition iter (v : yaml) : result (list yaml) :=
  match v with
  | YList l => Ok l
  | YMap m => Ok (map (fun kv => YStr (fst kv)) m)
  | YStr s => Ok (map YStr (Str.chars s))
  | YNull | YBool _ | YInt _ => Raise TypeError
  end.

(** [v == s] for a [str] [s]. *)
Definition eq_str (v : yaml) (s : string) : bool :=
  match v with
  | YStr s' => String.eqb s' s
  | _ => false
  end.

(** [a, b = l] *)
Definition unpack2 (l : list string) : result (string * string) :=
  match l with
  | [a; b] => Ok (a, b)
  | _ => Raise (UnpackError (length l))
  end.

(** [v.split(".")] where [v] comes from a document: only a [str] has
    the method. *)
Definition as_str_receiver (v : yaml) : result string :=
  match v with
  | YStr s => Ok s
  | _ => Raise AttributeError
  end.

(** [v + ".yml"] where [v] comes from a document. *)
Definition add_str (v : yaml) (suffix : string) : result string :=
  match v with
  | YStr s => Ok (s +:+ suffix)
  | _ => Raise TypeError
  end.

(** Validation of a [StrictStr] field. *)
Definition strict_str (v : yaml) : result string :=
  match v with
  | YStr s => Ok s
  | _ => Raise ValidationError
  end.

(** Validation of a [dict] field. *)
Definition strict_dict (v : yaml) : result (list (string * yaml)) :=
  match v with
  | YMap m => Ok m
  | _ => Raise ValidationError
  end.

(** Validation of an [Optional[List[StrictStr]]] field. *)
Definition optional_str_list (v : yaml) : result (option (list string)) :=
  match v with
  | YNull => Ok None
  | YList l => l' ← mapM strict_str l; Ok (Some l')
  | _ => Raise ValidationError
  end.

End Py.

(** ** Configuration models ([app/models]) *)

(** Each pydantic model is a record in a module of its name, so that the
    fields keep the names they have in the code. *)

(** [class Expectation] *)
Module Expectation.
Record t : Type := mk {
  expectation_type : string;   (* StrictStr *)
  kwargs : list (string * yaml)   (* dict *)
}.
End Expectation.

(** [class Suite] *)
Module Suite.
Record t : Type := mk {
  name : string;   (* StrictStr *)
  expectations : list Expectation.t
}.
End Suite.

(** [class DataAsset] *)
Module DataAsset.
Record t : Type := mk {
  name : string;   (* StrictStr *)
  query : string   (* StrictStr *)
}.
End DataAsset.

(** [class Run] *)
Module Run.
Record t : Type := mk {
  data_assets : list DataAsset.t;
  suite : Suite.t
}.
End Run.

(** [class Job] *)
Module Job.
Record t : Type := mk {
  name : string;   (* StrictStr *)
  runs : list Run.t;
  tags : option (list string)   (* Optional[List[StrictStr]] *)
}.
End Job.

(** ** Settings and file system *)

(** [core.config.Config] *)
Record Config : Type := mkConfig {
  env : string;
  project_path : string;
  microsoft_teams_webhook : string
}.

(** What the code sees of the file system.  [fs_open path] is
    [yaml.safe_load(open(path))]: [None] when the file does not exist,
    and the loaded document otherwise ([YNull] for an empty file).
    [fs_walk top] is the sequence of [(root, dirs, files)] triples that
    [os.walk(top)] yields, in the order it yields them. *)
Record filesystem : Type := mkFs {
  fs_open : string -> option yaml;
  fs_walk : string -> list (string * list string * list string)
}.

Definition open_load (fs : filesystem) (path : string) : result yaml :=
  match fs_open fs path with
  | Some doc => Ok doc
  | None => Raise (FileNotFoundError path)
  end.

(** ** [app/utils/selector.py] *)

Section Selector.

Variable settings : Config.
Variable fs : filesystem.

Definition asset_path (tbl_name : string) : string :=
  Path.join (project_path settings)
    ["resources/data_assets"; tbl_name +:+ ".yml"].

(** The loop of [select_asset] over the entries of [data_assets]. *)
Fixpoint find_asset (fname asset_name : string) (assets : list yaml)
  : result DataAsset.t :=
  match assets with
  | [] => Raise (AssetNotFound fname)
  | asset :: rest =>
      nm ← Py.get asset "name";
      if Py.eq_str nm asset_name then
        q ← Py.getitem asset "query";
        q' ← Py.strict_str q;
        Ok (DataAsset.mk fname q')
      else find_asset fname asset_name rest
  end.

Definition select_asset (fname : string) : result DataAsset.t :=
  '(tbl_name, asset_name) ← Py.unpack2 (Str.split "." fname);
  doc ← open_load fs (asset_path tbl_name);
  assets ← Py.getitem doc "data_assets";
  entries ← Py.iter assets;
  find_asset fname asset_name entries.

Definition suite_path (file_name : string) : string :=
  Path.join (project_path settings) ["resources/suites"; file_name].

(** The body of the loop of [select_suite]. *)
Definition build_expectation (expectation : yaml) : result Expectation.t :=
  ty ← Py.getitem expectation "expectation_type";
  kw ← Py.getitem expectation "kwargs";
  ty' ← Py.strict_str ty;
  kw' ← Py.strict_dict kw;
  Ok (Expectation.mk ty' kw').

(** [select_suite] once [suite_name + ".yml"] is evaluated. *)
Definition select_suite_file (file_name : string) : result Suite.t :=
  suite_data ← open_load fs (suite_path file_name);
  es ← Py.get suite_data "expectations";
  entries ← Py.iter es;
  expectations ← mapM build_expectation entries;
  nm ← Py.getitem suite_data "name";
  nm' ← Py.strict_str nm;
  Ok (Suite.mk nm' expectations).

Definition select_suite (suite_name : string) : result Suite.t :=
  select_suite_file (suite_name +:+ ".yml").

(** ** [app/utils/job_selector_factory.py] *)

(** The body of the loop of [handle_job_data] over the runs.  The
    asset names and the suite name come from the document and may be
    of any type. *)
Definition build_run (run : yaml) : result Run.t :=
  names ← Py.getitem run "data_assets";
  names' ← Py.iter names;
  data_assets ← mapM (fun data_asset_name =>
                        fname ← Py.as_str_receiver data_asset_name;
                        select_asset fname) names';
  sn ← Py.getitem run "suite";
  file_name ← Py.add_str sn ".yml";
  suite ← select_suite_file file_name;
  Ok (Run.mk data_assets suite).

Definition handle_job_data (job_data : yaml) : result Job.t :=
  rs ← Py.get job_data "runs";
  entries ← Py.iter rs;
  runs ← mapM build_run entries;
  nm ← Py.get job_data "name";
  tg ← Py.get job_data "tags";
  nm' ← Py.strict_str nm;
  tg' ← Py.optional_str_list tg;
  Ok (Job.mk nm' runs tg').

Definition job_path (sub_folder job_name : string) : string :=
  Path.join (project_path settings)
    ["resources/jobs"; sub_folder; job_name +:+ ".yml"].

Definition _select_job_by_filename (fname : string) : result Job.t :=
  '(sub_folder, job_name) ← Py.unpack2 (Str.split "." fname);
  job_data ← open_load fs (job_path sub_folder job_name);
  if Py.truthy job_data then handle_job_data job_data
  else Raise (NoJobForFilename fname).

(** [tag in job.tags]: membership in a list, [TypeError] on [None]. *)
Definition tag_in (tag : string) (job_tags : option (list string))
  : result bool :=
  match job_tags with
  | Some ts => Ok (existsb (String.eqb tag) ts)
  | None => Raise TypeError
  end.

(** [all(tag in job.tags for tag in tags)]: the generator is consumed
    up to the first false membership. *)
Fixpoint all_tags_in (job_tags : option (list string)) (tags : list string)
  : result bool :=
  match tags with
  | [] => Ok true
  | tag :: rest =>
      b ← tag_in tag job_tags;
      if b : bool then all_tags_in job_tags rest else Ok false
  end.

Definition jobs_root : string :=
  Path.join (project_path settings) ["resources/jobs"].

(** The paths [os.path.join(root, file)] of the [.yml] files the two
    nested loops of [_select_jobs_by_tags] visit, in visiting order. *)
Definition job_files : list string :=
  flat_map (fun entry : string * list string * list string =>
              let '(root, _, files) := entry in
              map (fun file => Path.join root [file])
                  (List.filter (Str.endswith ".yml") files))
           (fs_walk fs jobs_root).

(** The loops of [_select_jobs_by_tags], with the list [jobs] built so
    far. *)
Fixpoint scan_job_files (tags : list string) (paths : list string)
    (jobs : list Job.t) : result (list Job.t) :=
  match paths with
  | [] => Ok jobs
  | file_path :: rest =>
      job_data ← open_load fs file_path;
      job ← handle_job_data job_data;
      keep ← all_tags_in (Job.tags job) tags;
      scan_job_files tags rest (if keep : bool then jobs ++ [job] else jobs)
  end.

Definition _select_jobs_by_tags (tags : list string) : result (list Job.t) :=
  jobs ← scan_job_files tags job_files [];
  if (length jobs =? 0)%nat then Raise (NoJobForTags tags) else Ok jobs.

(** The argument of [select_job]: a [str], a [list], or a value of
    another type. *)
Inductive selector : Type :=
| ByName (fname : string)
| ByTags (tags : list string)
| NotASelector.

(** What [select_job] returns: the filename path returns one [Job],
    the tag path a list. *)
Inductive selection : Type :=
| OneJob (job : Job.t)
| ManyJobs (jobs : list Job.t).

Definition select_job (fname_or_tags : selector) : result selection :=
  match fname_or_tags with
  | ByName fname => OneJob <$> _select_job_by_filename fname
  | ByTags tags => ManyJobs <$> _select_jobs_by_tags tags
  | NotASelector => Raise InvalidArgumentType
  end.

End Selector.

(** ** The external validation runtime

    The runtime is not part of the repository.  Its catalogue is
    modelled by the data the driver hands to it: the query assets of a
    data source, the expectation suites and the checkpoints of a
    context.  What the runtime decides on its own (whether a context can
    be loaded, which assets a registered data source already has,
    whether it accepts a query asset or an expectation, whether a
    checkpoint run succeeds) is a field of [Runtime].  The calls that
    only record what they are given ([build_batch_request],
    [add_or_update_expectation_suite], [update_expectation_suite]) are
    taken to return. *)

(** What [data_asset.build_batch_request()] returns: a request naming
    the data source and the asset. *)
Record BatchRequest : Type := mkBatchRequest {
  datasource_name : string;
  data_asset_name : string
}.

(** A data source object: its name, its connection string and its query
    assets by name. *)
Record Datasource : Type := mkDatasource {
  ds_name : string;
  ds_connection_string : string;
  ds_assets : gmap string string
}.

(** One element of the list [build_validations] returns: the dict
    [{"batch_request": ..., "expectation_suite_name": ...}]. *)
Record Validation : Type := mkValidation {
  batch_request : BatchRequest;
  expectation_suite_name : string
}.

(** One element of the [action_list] of a checkpoint. *)
Inductive Action : Type :=
| PlainAction (name class_name : string)
| TeamsNotificationAction (name notify_on webhook : string).

Record Checkpoint : Type := mkCheckpoint {
  cp_name : string;
  cp_run_name_template : string;
  cp_validations : list Validation;
  cp_action_list : list Action
}.

(** A context: the suites (the expectation configurations each one
    holds) and the checkpoints it stores. *)
Record Context : Type := mkContext {
  ctx_suites : gmap string (list Expectation.t);
  ctx_checkpoints : gmap string Checkpoint
}.

Record Runtime : Type := mkRuntime {
  (* [gx.get_context(project_root_dir=..., runtime_environment={"ENV": ...})] *)
  get_context : string -> string -> result Context;
  (* [context.sources.add_or_update_postgres(name, connection_string=...)] *)
  add_or_update_postgres : Context -> string -> string -> result Datasource;
  (* [data_source.add_query_asset(name=..., query=...)]: the error the
     runtime raises instead of creating the asset, if it rejects it *)
  add_query_asset_error : Datasource -> string -> string -> option exn;
  (* [suite.add_expectation(ExpectationConfiguration(...))] on a suite that
     holds the given configurations: the configurations the suite holds
     afterwards, or the error raised for the configuration *)
  add_expectation :
    list Expectation.t -> Expectation.t -> result (list Expectation.t);
  (* [context.add_or_update_checkpoint(...)] then
     [checkpoint.run().success], or the error one of them raises *)
  checkpoint_run : Context -> Datasource -> Checkpoint -> result bool
}.

(** [data_source.get_asset(name)] raises when the source has no asset of
    that name; [None] stands for the raise, which the caller catches. *)
Definition get_asset (data_source : Datasource) (name : string)
  : option DataAsset.t :=
  DataAsset.mk name <$> ds_assets data_source !! name.

(** [data_source.add_query_asset(name=..., query=...)]: unless the
    runtime rejects the asset, the source gains it and the call returns
    it. *)
Definition add_query_asset (rt : Runtime) (data_source : Datasource)
    (name query : string) : result (Datasource * DataAsset.t) :=
  match add_query_asset_error rt data_source name query with
  | Some e => Raise e
  | None =>
      Ok (mkDatasource (ds_name data_source)
            (ds_connection_string data_source)
            (<[name := query]> (ds_assets data_source)),
          DataAsset.mk name query)
  end.

Definition build_batch_request (data_source : Datasource)
    (data_asset : DataAsset.t) : BatchRequest :=
  mkBatchRequest (ds_name data_source) (DataAsset.name data_asset).

(** ** [app/main.py] *)

(** The loop of [build_suite]: each expectation is turned into a
    configuration and added to the suite; the first one the runtime
    refuses ends the loop. *)
Fixpoint add_expectations (rt : Runtime) (suite : list Expectation.t)
    (expectations : list Expectation.t) : result (list Expectation.t) :=
  match expectations with
  | [] => Ok suite
  | expectation :: rest =>
      suite' ← add_expectation rt suite
                 (Expectation.mk (Expectation.expectation_type expectation)
                                 (Expectation.kwargs expectation));
      add_expectations rt suite' rest
  end.

(** The context with [suite] stored under [suite_name]. *)
Definition store_suite (context : Context) (suite_name : string)
    (suite : list Expectation.t) : Context :=
  mkContext (<[suite_name := suite]> (ctx_suites context))
            (ctx_checkpoints context).

(** [build_suite]: [add_or_update_expectation_suite] stores an empty suite
    under the name; the suite then receives the expectations one by one
    and [update_expectation_suite] stores it.  When an expectation is
    refused the context keeps the empty suite. *)
Definition build_suite (rt : Runtime) (context : Context)
    (suite_config : Suite.t) : Context * result string :=
  let suite_name := Suite.name suite_config in
  let context := store_suite context suite_name [] in
  match add_expectations rt [] (Suite.expectations suite_config) with
  | Ok suite => (store_suite context suite_name suite, Ok suite_name)
  | Raise e => (context, Raise e)
  end.

(** The state the loops of [build_validations] update: the context, the
    data source, and the list [validations]. *)
Record build_state : Type := mkBuildState {
  bs_context : Context;
  bs_data_source : Datasource;
  bs_validations : list Validation
}.

(** Body of the innermost loop, for one data asset of a run: the state
    it leaves and whether it raised.  The lookup of the asset is inside the
    [try]; the creation of a missing asset and [build_suite] are not. *)
Definition validate_asset (rt : Runtime) (run : Run.t) (st : build_state)
    (data_asset_config : DataAsset.t) : build_state * result unit :=
  match
    match get_asset (bs_data_source st) (DataAsset.name data_asset_config) with
    | Some data_asset => Ok (bs_data_source st, data_asset)
    | None => add_query_asset rt (bs_data_source st)
                (DataAsset.name data_asset_config)
                (DataAsset.query data_asset_config)
    end
  with
  | Raise e => (st, Raise e)
  | Ok (data_source, data_asset) =>
      let batch_request := build_batch_request data_source data_asset in
      match build_suite rt (bs_context st) (Run.suite run) with
      | (context, Ok suite_name) =>
          (mkBuildState context data_source
             (bs_validations st ++ [mkValidation batch_request suite_name]),
           Ok tt)
      | (context, Raise e) =>
          (mkBuildState context data_source (bs_validations st), Raise e)
      end
  end.

(** A [for] loop over [l] whose body updates the state and may raise:
    the first raise ends the loop, with the state reached. *)
Fixpoint for_each {B : Type}
    (body : build_state -> B -> build_state * result unit)
    (l : list B) (st : build_state) : build_state * result unit :=
  match l with
  | [] => (st, Ok tt)
  | b :: rest =>
      match body st b with
      | (st', Ok _) => for_each body rest st'
      | (st', Raise e) => (st', Raise e)
      end
  end.

Definition validate_run (rt : Runtime) (st : build_state) (run : Run.t)
  : build_state * result unit :=
  for_each (validate_asset rt run) (Run.data_assets run) st.

Definition validate_job (rt : Runtime) (st : build_state) (job : Job.t)
  : build_state * result unit :=
  for_each (validate_run rt) (Job.runs job) st.

(** [if isinstance(jobs, Job): jobs = [jobs]] *)
Definition normalize_jobs (jobs : selection) : list Job.t :=
  match jobs with
  | OneJob job => [job]
  | ManyJobs jobs => jobs
  end.

(** [build_validations]: the state the loops leave, whose
    [bs_validations] is the list returned, and whether a call raised. *)
Definition build_validations (rt : Runtime) (context : Context)
    (data_source : Datasource) (jobs : selection)
  : build_state * result unit :=
  for_each (validate_job rt) (normalize_jobs jobs)
    (mkBuildState context data_source []).

Definition build_teams_noti_action (notify_on webhook : string) : Action :=
  TeamsNotificationAction "send_teams_noti_on_validation_result"
    notify_on webhook.

Definition run_checkpoint (rt : Runtime) (context : Context)
    (data_source : Datasource) (job_name : string)
    (validations : list Validation) (webhook : string)
  : Context * result bool :=
  let action_list :=
    [ PlainAction "store_validation_result" "StoreValidationResultAction";
      PlainAction "store_evaluation_params" "StoreEvaluationParametersAction";
      PlainAction "update_data_docs" "UpdateDataDocsAction" ]
    ++ [build_teams_noti_action "failure" webhook] in
  let checkpoint := mkCheckpoint job_name job_name validations action_list in
  let context :=
    mkContext (ctx_suites context)
              (<[job_name := checkpoint]> (ctx_checkpoints context)) in
  (context, checkpoint_run rt context data_source checkpoint).

(** The command line: every flag is optional. *)
Record Args : Type := mkArgs {
  start_date : option string;
  end_date : option string;
  arg_job_name : option string;
  arg_job_tags : option string;
  arg_webhook : option string
}.

(** Truth value of an optional string ([None] and [""] are false). *)
Definition supplied (o : option string) : bool :=
  match o with
  | Some s => negb (String.eqb s "")
  | None => false
  end.

(** [s.split("-")] for [--job_tags]. *)
Definition split_tags (s : string) : list string := Str.split "-" s.

(** The calls the driver makes, recorded in order. *)
Inductive step : Type :=
| LoadContext
| LoadDataSource
| SelectJob (fname_or_tags : selector)
| BuildValidations
| RunCheckpoint (name : string).

(** A computation of the driver: the steps made, and a result. *)
Definition traced (A : Type) : Type := list step * result A.

Global Instance traced_ret : MRet traced := fun A a => ([], Ok a).
Global Instance traced_bind : MBind traced := fun A B f m =>
  match m with
  | (s, Ok a) => let '(s', r) := f a in (s ++ s', r)
  | (s, Raise e) => (s, Raise e)
  end.

Definition tick (s : step) : traced unit := ([s], Ok tt).
Definition lift {A} (r : result A) : traced A := ([], r).

Section Driver.

Variable settings : Config.
Variable fs : filesystem.
Variable rt : Runtime.

Definition load_context (project_path : string) (env : string)
  : result Context :=
  get_context rt project_path env.

Definition load_data_source (context : Context) (ds_name : string)
  : result Datasource :=
  let data_source_path :=
    Path.join (project_path settings)
      ["resources/data_sources"; ds_name +:+ ".yml"] in
  data_source_params ← open_load fs data_source_path;
  nm ← Py.getitem data_source_params "name";
  cs ← Py.getitem data_source_params "connection_string";
  nm' ← Py.strict_str nm;
  cs' ← Py.strict_str cs;
  add_or_update_postgres rt context nm' cs'.

(** One branch of the driver: select with [sel], build the
    validations, run the checkpoint named [name]. *)
Definition select_and_run (context : Context) (data_source : Datasource)
    (sel : selector) (name webhook : string) : traced bool :=
  _ ← tick (SelectJob sel);
  jobs ← lift (select_job settings fs sel);
  _ ← tick BuildValidations;
  let built := build_validations rt context data_source jobs in
  _ ← lift (snd built);
  _ ← tick (RunCheckpoint name);
  lift (snd (run_checkpoint rt (bs_context (fst built))
               (bs_data_source (fst built)) name
               (bs_validations (fst built)) webhook)).

(** The [try] block of the driver. *)
Definition try_block (args : Args) : traced unit :=
  let env := env settings in
  let project_path := project_path settings in
  let webhook :=
    if supplied (arg_webhook args) then default "" (arg_webhook args)
    else microsoft_teams_webhook settings in
  _ ← tick LoadContext;
  context ← lift (load_context project_path env);
  _ ← tick LoadDataSource;
  data_source ← lift (load_data_source context "staging_postgres");
  success ←
    (if supplied (arg_job_name args) then
       let job_name := default "" (arg_job_name args) in
       select_and_run context data_source (ByName job_name) job_name webhook
     else if supplied (arg_job_tags args) then
       let job_tags := default "" (arg_job_tags args) in
       let tags_list := split_tags job_tags in
       select_and_run context data_source (ByTags tags_list) job_tags webhook
     else lift (Raise NoSelector));
  if success : bool then mret tt else lift (Raise ExpectationsNotMet).

(** The driver: both [except] clauses re-raise the error wrapped in an
    [Exception] whose message starts with "ERROR: ".  [Ok] is exit
    status zero; a raise aborts the process with a non-zero status. *)
Definition main (args : Args) : traced unit :=
  match try_block args with
  | (s, Ok tt) => (s, Ok tt)
  | (s, Raise error) => (s, Raise (Wrapped error))
  end.

End Driver.

(** ** A sample project

    A project tree used to run the definitions: one asset group, one
    suite, and job files under [resources/jobs/finance]. *)

Module Sample.

Definition settings : Config := mkConfig "dev" "/proj" "https://hook".

Definition way4_yml : yaml :=
  YMap [("data_assets",
         YList [YMap [("name", YStr "doc"); ("query", YStr "select 1")];
                YMap [("name", YStr "acc"); ("query", YStr "select 2")]])].

Definition basic_yml : yaml :=
  YMap [("name", YStr "basic_suite");
        ("expectations",
         YList [YMap [("expectation_type", YStr "expect_column_to_exist");
                      ("kwargs", YMap [("column", YStr "id")])];
                YMap [("expectation_type",
                       YStr "expect_column_values_to_not_be_null");
                      ("kwargs", YMap [("column", YStr "id")])]])].

Definition daily_recon_yml : yaml :=
  YMap [("name", YStr "daily_recon");
        ("tags", YList [YStr "nightly"; YStr "finance"]);
        ("runs",
         YList [YMap [("data_assets", YList [YStr "way4.doc"; YStr "way4.acc"]);
                      ("suite", YStr "basic")]])].

Definition weekly_yml : yaml :=
  YMap [("name", YStr "weekly");
        ("tags", YList [YStr "finance"]);
        ("runs",
         YList [YMap [("data_assets", YList [YStr "way4.acc"]);
                      ("suite", YStr "basic")]])].

(** A job file without a [tags] field. *)
Definition untagged_yml : yaml :=
  YMap [("name", YStr "untagged");
        ("runs",
         YList [YMap [("data_assets", YList [YStr "way4.doc"]);
                      ("suite", YStr "basic")]])].

Definition staging_postgres_yml : yaml :=
  YMap [("name", YStr "staging");
        ("connection_string", YStr "postgresql://db/staging")].

Definition resources : gmap string yaml :=
  list_to_map
    [("/proj/resources/data_assets/way4.yml", way4_yml);
     ("/proj/resources/suites/basic.yml", basic_yml);
     ("/proj/resources/data_sources/staging_postgres.yml",
      staging_postgres_yml);
     ("/proj/resources/jobs/finance/empty.yml", YNull)].

(** The tree with the given job files under [resources/jobs/finance],
    next to a file that is not a [.yml] file. *)
Definition tree (jobs : list (string * yaml)) : filesystem :=
  let files :=
    list_to_map
      (map (fun kv : string * yaml =>
              ("/proj/resources/jobs/finance/" +:+ fst kv, snd kv)) jobs)
      ∪ resources in
  mkFs (fun path => files !! path)
       (fun top =>
          if String.eqb top "/proj/resources/jobs" then
            [("/proj/resources/jobs", ["finance"], []);
             ("/proj/resources/jobs/finance", [],
              map fst jobs ++ ["README.txt"])]
          else []).

(** Two tagged jobs. *)
Definition fs : filesystem :=
  tree [("daily_recon.yml", daily_recon_yml); ("weekly.yml", weekly_yml)].

(** The same tree with an untagged job file after the tagged ones. *)
Definition fs_untagged : filesystem :=
  tree [("daily_recon.yml", daily_recon_yml); ("weekly.yml", weekly_yml);
        ("untagged.yml", untagged_yml)].

(** A tree whose only job file has no tags. *)
Definition fs_only_untagged : filesystem :=
  tree [("untagged.yml", untagged_yml)].

(** A runtime whose context starts empty, whose data sources start
    without assets, which accepts every query asset, appends every
    expectation, and whose checkpoint runs succeed. *)
Definition rt : Runtime :=
  mkRuntime (fun _ _ => Ok (mkContext ∅ ∅))
            (fun _ name cs => Ok (mkDatasource name cs ∅))
            (fun _ _ _ => None)
            (fun suite x => Ok (suite ++ [x]))
            (fun _ _ _ => Ok true).

(** The same runtime, except that it refuses the expectations of a type
    it does not know. *)
Definition rt_strict : Runtime :=
  mkRuntime (fun _ _ => Ok (mkContext ∅ ∅))
            (fun _ name cs => Ok (mkDatasource name cs ∅))
            (fun _ _ _ => None)
            (fun suite x =>
               if String.eqb (Expectation.expectation_type x)
                    "expect_column_to_exist"
               then Ok (suite ++ [x])
               else Raise (RuntimeFailure "InvalidExpectationConfigurationError"))
            (fun _ _ _ => Ok true).

Definition args (job_name job_tags : option string) : Args :=
  mkArgs None None job_name job_tags None.

End Sample.

(** ** Vocabulary of the properties

    The notions the statements below are written with. *)

(** A plain path component: not empty and without a slash. *)
Definition plain (s : string) : Prop := s <> "" /\ Str.count "/" s = 0.

(** The entry of a [data_assets] list named [l], with query [q]. *)
Definition asset_entry (l q : string) (entry : yaml) : Prop :=
  Py.get entry "name" = Ok (YStr l) /\ Py.getitem entry "query" = Ok (YStr q).

(** An entry of a [data_assets] list with another name than [l]. *)
Definition entry_not_named (l : string) (entry : yaml) : Prop :=
  exists nm, Py.get entry "name" = Ok nm /\ Py.eq_str nm l = false.

(** The entry of an [expectations] list that carries the type and the
    arguments of the expectation [x]. *)
Definition expectation_entry (entry : yaml) (x : Expectation.t) : Prop :=
  Py.getitem entry "expectation_type" = Ok (YStr (Expectation.expectation_type x))
  /\ Py.getitem entry "kwargs" = Ok (YMap (Expectation.kwargs x)).

(** Every requested tag is among the tags [ts]. *)
Definition requested_in (tags ts : list string) : bool :=
  forallb (fun tag => existsb (String.eqb tag) ts) tags.

(** The tag set of the job is a superset of the requested tags. *)
Definition covers (tags : list string) (job : Job.t) : bool :=
  match Job.tags job with
  | Some ts => requested_in tags ts
  | None => false
  end.

(** What the loop does with one job file before it filters. *)
Definition load_job (settings : Config) (fs : filesystem)
    (file_path : string) : result Job.t :=
  job_data ← open_load fs file_path;
  handle_job_data settings fs job_data.

(** The descriptor of one data asset of a run, on the data source named
    [source]. *)
Definition descriptor (source : string) (run : Run.t) (a : DataAsset.t)
  : Validation :=
  mkValidation (mkBatchRequest source (DataAsset.name a))
               (Suite.name (Run.suite run)).

(** The descriptors of a list of jobs in Job, Run, DataAsset nesting
    order. *)
Definition descriptors (source : string) (jobs : list Job.t)
  : list Validation :=
  flat_map (fun job =>
    flat_map (fun run => map (descriptor source run) (Run.data_assets run))
             (Job.runs job)) jobs.

(** The data assets of a list of jobs, in nesting order. *)
Definition all_assets (jobs : list Job.t) : list DataAsset.t :=
  flat_map (fun job => flat_map Run.data_assets (Job.runs job)) jobs.

(** The number of data assets across all runs of all jobs. *)
Definition asset_count (jobs : list Job.t) : nat :=
  list_sum (map (fun job =>
    list_sum (map (fun run => length (Run.data_assets run)) (Job.runs job)))
    jobs).

(** The suites of a context after the suite of [run] is built in it:
    the configurations the runtime makes of its expectations, stored under
    its name. *)
Definition register_suite (rt : Runtime)
    (suites : gmap string (list Expectation.t)) (run : Run.t)
  : gmap string (list Expectation.t) :=
  match add_expectations rt [] (Suite.expectations (Run.suite run)) with
  | Ok suite => <[Suite.name (Run.suite run) := suite]> suites
  | Raise _ => suites
  end.

(** The runs of a list of jobs in nesting order, each listed once per
    data asset it has: the calls of [build_suite]. *)
Definition asset_runs (jobs : list Job.t) : list Run.t :=
  flat_map (fun job =>
    flat_map (fun run => map (fun _ => run) (Run.data_assets run))
             (Job.runs job)) jobs.

(** The asset is added under its name with its query unless the name is
    taken. *)
Definition register_missing (assets : gmap string string) (a : DataAsset.t)
  : gmap string string :=
  match assets !! DataAsset.name a with
  | Some _ => assets
  | None => <[DataAsset.name a := DataAsset.query a]> assets
  end.

(** The entry of a [runs] list from which the run [r] is assembled: its
    [data_assets] are composite names that [select_asset] resolves to the
    assets of [r], in order, and its [suite] is a name that [select_suite]
    resolves to the suite of [r]. *)
Definition run_entry (settings : Config) (fs : filesystem)
    (entry : yaml) (r : Run.t) : Prop :=
  exists names sn,
    Py.getitem entry "data_assets" = Ok (YList (map YStr names))
    /\ Forall2 (fun n a => select_asset settings fs n = Ok a)
               names (Run.data_assets r)
    /\ Py.getitem entry "suite" = Ok (YStr sn)
    /\ select_suite settings fs sn = Ok (Run.suite r).

(** The job has a list of tags. *)
Definition tagged (job : Job.t) : Prop := Job.tags job <> None.

(** The selector the command line designates and the name its
    checkpoint gets: the job name when it is supplied, else the pieces of
    the tag argument, else nothing. *)
Definition chosen (args : Args) : option (selector * string) :=
  match arg_job_name args, arg_job_tags args with
  | Some n, t =>
      if negb (String.eqb n "") then Some (ByName n, n)
      else match t with
           | Some t => if negb (String.eqb t "") then
                         Some (ByTags (Str.split "-" t), t)
                       else None
           | None => None
           end
  | None, Some t =>
      if negb (String.eqb t "") then Some (ByTags (Str.split "-" t), t)
      else None
  | None, None => None
  end.

(** The webhook of the notification: the one of the command line when it
    is supplied, else the one of the settings. *)
Definition webhook_of (settings : Config) (args : Args) : string :=
  match arg_webhook args with
  | Some w => if String.eqb w "" then microsoft_teams_webhook settings else w
  | None => microsoft_teams_webhook settings
  end.

(** The checkpoint of a run named [name] over [validations]: the three
    storing actions, then the notification on failure. *)
Definition checkpoint_of (name : string) (validations : list Validation)
    (webhook : string) : Checkpoint :=
  mkCheckpoint name name validations
    [PlainAction "store_validation_result" "StoreValidationResultAction";
     PlainAction "store_evaluation_params" "StoreEvaluationParametersAction";
     PlainAction "update_data_docs" "UpdateDataDocsAction";
     TeamsNotificationAction "send_teams_noti_on_validation_result"
       "failure" webhook].

(** How the driver ends once the checkpoint has run. *)
Definition verdict (r : result bool) : result unit :=
  match r with
  | Ok true => Ok tt
  | Ok false => Raise (Wrapped ExpectationsNotMet)
  | Raise e => Raise (Wrapped e)
  end.

(** Exactly one of [--job_name] and [--job_tags] is supplied. *)
Definition exactly_one_selector (args : Args) : bool :=
  xorb (supplied (arg_job_name args)) (supplied (arg_job_tags args)).

(** * Properties *)

(** ** Splitting names *)

Section SplitFacts.

Variable sep : ascii.

Lemma split_nonempty s : Str.split sep s <> [].
Proof.
  destruct s as [|c s]; simpl; [discriminate|].
  destruct (Ascii.eqb c sep); [discriminate|].
  destruct (Str.split sep s); discriminate.
Qed.

(** A string with [n] separators splits into [n + 1] pieces. *)
Lemma split_length s : length (Str.split sep s) = S (Str.count sep s).
Proof.
  induction s as [|c s IH]; simpl; [reflexivity|].
  destruct (Ascii.eqb c sep); simpl.
  - now rewrite IH.
  - destruct (Str.split sep s) as [|w ws] eqn:E; simpl in *; lia.
Qed.

Lemma split_no_sep s : Str.count sep s = 0 -> Str.split sep s = [s].
Proof.
  induction s as [|c s IH]; simpl; [reflexivity|].
  destruct (Ascii.eqb c sep); simpl; [discriminate|].
  intros H. now rewrite (IH H).
Qed.

(** Two pieces without separator, joined by one, split back. *)
Lemma split_join g l :
  Str.count sep g = 0 -> Str.count sep l = 0 ->
  Str.split sep (g +:+ String sep l) = [g; l].
Proof.
  intros Hg Hl. induction g as [|c g IH]; simpl in *.
  - rewrite Ascii.eqb_refl. now rewrite (split_no_sep l Hl).
  - destruct (Ascii.eqb c sep); simpl in *; [discriminate|].
    now rewrite (IH Hg).
Qed.

(** When the split has exactly two pieces, the first is the text before
    the first separator and the second is the text after it. *)
Lemma split_two_inv s g l :
  Str.split sep s = [g; l] ->
  s = g +:+ String sep l /\ Str.count sep g = 0 /\ Str.count sep l = 0.
Proof.
  revert g. induction s as [|c s IH]; simpl; intros g H; [discriminate|].
  destruct (Ascii.eqb c sep) eqn:Ec.
  - apply Ascii.eqb_eq in Ec. subst c.
    injection H as <- Hs.
    assert (Hc : Str.count sep s = 0).
    { pose proof (split_length s) as Hlen. rewrite Hs in Hlen.
      simpl in Hlen. lia. }
    rewrite (split_no_sep s Hc) in Hs. injection Hs as ->.
    simpl. auto.
  - destruct (Str.split sep s) as [|w ws] eqn:E.
    + discriminate.
    + injection H as <- ->.
      destruct (IH w eq_refl) as (-> & Hw & Hl).
      simpl. rewrite Ec. auto.
Qed.

(** Unpacking into two names succeeds exactly on one separator. *)
Lemma unpack2_split_ok s :
  Str.count sep s = 1 ->
  exists g l, Py.unpack2 (Str.split sep s) = Ok (g, l).
Proof.
  intros H. pose proof (split_length s) as Hlen. rewrite H in Hlen.
  destruct (Str.split sep s) as [|g [|l [|x r]]]; simpl in Hlen;
    try lia.
  exists g, l. reflexivity.
Qed.

Lemma unpack2_split_raise s :
  Str.count sep s <> 1 ->
  Py.unpack2 (Str.split sep s) = Raise (UnpackError (S (Str.count sep s))).
Proof.
  intros H. pose proof (split_length s) as Hlen.
  destruct (Str.split sep s) as [|g [|l [|x r]]]; simpl in *;
    try (rewrite <- Hlen; reflexivity).
  lia.
Qed.

End SplitFacts.

(** ** Paths of plain names *)

Lemma append_cons c (s t : string) : String c s +:+ t = String c (s +:+ t).
Proof. reflexivity. Qed.

Lemma endswith_slash_app s t :
  t <> "" -> Str.endswith "/" (s +:+ t) = Str.endswith "/" t.
Proof.
  intros Ht. induction s as [|c s IH]; [reflexivity|].
  change (Str.endswith "/" (String c s +:+ t))
    with (String.eqb (String c (s +:+ t)) "/" || Str.endswith "/" (s +:+ t)).
  rewrite IH.
  replace (String.eqb (String c (s +:+ t)) "/") with false; [reflexivity|].
  symmetry. apply String.eqb_neq. intros H. injection H as _ H.
  destruct s; simpl in H; [contradiction|discriminate].
Qed.

Lemma plain_app_not_absolute s t :
  plain s -> Str.startswith "/" (s +:+ t) = false.
Proof.
  intros [Hne Hc]. destruct s as [|c s]; [contradiction|].
  unfold Str.startswith.
  change (String.prefix "/" (String c s +:+ t))
    with (if Ascii.ascii_dec "/" c then String.prefix "" (s +:+ t) else false).
  destruct (Ascii.ascii_dec "/" c) as [<-|]; [|reflexivity].
  simpl in Hc. discriminate.
Qed.

Lemma plain_not_absolute s : plain s -> Str.startswith "/" s = false.
Proof.
  intros H. pose proof (plain_app_not_absolute s "" H) as E.
  replace (s +:+ "") with s in E; [exact E|].
  clear. induction s as [|c s IH]; [reflexivity|].
  rewrite append_cons. congruence.
Qed.

Lemma plain_no_trailing_slash s : plain s -> Str.endswith "/" s = false.
Proof.
  intros [_ Hc]. induction s as [|c s IH]; [reflexivity|].
  simpl in Hc. destruct (Ascii.eqb c "/") eqn:E; [discriminate|].
  change (Str.endswith "/" (String c s))
    with (String.eqb (String c s) "/" || Str.endswith "/" s).
  rewrite (IH Hc), orb_false_r.
  apply String.eqb_neq. intros H. injection H as -> _.
  discriminate.
Qed.

Lemma join2_plain path b :
  path <> "" -> Str.endswith "/" path = false ->
  Str.startswith "/" b = false ->
  Path.join2 path b = path +:+ "/" +:+ b.
Proof.
  intros Hne He Hb. unfold Path.join2. rewrite Hb, He.
  apply String.eqb_neq in Hne. now rewrite Hne.
Qed.

Lemma append_assoc (a b c : string) : (a +:+ b) +:+ c = a +:+ (b +:+ c).
Proof.
  induction a as [|x a IH]; [reflexivity|].
  rewrite !append_cons. congruence.
Qed.

Lemma append_nonempty_r (a b : string) : b <> "" -> a +:+ b <> "".
Proof. destruct a; [auto|rewrite append_cons; discriminate]. Qed.

Section Paths.

Variable settings : Config.

(** The project root is a directory path without a trailing slash. *)
Hypothesis root_nonempty : project_path settings <> "".
Hypothesis root_no_slash : Str.endswith "/" (project_path settings) = false.

Lemma asset_path_plain g :
  plain g ->
  asset_path settings g
  = project_path settings +:+ "/resources/data_assets/" +:+ g +:+ ".yml".
Proof.
  intros Hg. unfold asset_path, Path.join. cbn [fold_left].
  rewrite (join2_plain _ "resources/data_assets");
    [|assumption|assumption|reflexivity].
  rewrite join2_plain.
  - now rewrite !append_assoc.
  - now apply append_nonempty_r.
  - now rewrite endswith_slash_app.
  - now apply plain_app_not_absolute.
Qed.

Lemma suite_path_plain n :
  plain n ->
  suite_path settings (n +:+ ".yml")
  = project_path settings +:+ "/resources/suites/" +:+ n +:+ ".yml".
Proof.
  intros Hn. unfold suite_path, Path.join. cbn [fold_left].
  rewrite (join2_plain _ "resources/suites");
    [|assumption|assumption|reflexivity].
  rewrite join2_plain.
  - now rewrite !append_assoc.
  - now apply append_nonempty_r.
  - now rewrite endswith_slash_app.
  - now apply plain_app_not_absolute.
Qed.

Lemma job_path_plain sub_folder job_name :
  plain sub_folder -> plain job_name ->
  job_path settings sub_folder job_name
  = project_path settings +:+ "/resources/jobs/" +:+ sub_folder
      +:+ "/" +:+ job_name +:+ ".yml".
Proof.
  intros Hs Hj. unfold job_path, Path.join. cbn [fold_left].
  rewrite (join2_plain _ "resources/jobs");
    [|assumption|assumption|reflexivity].
  rewrite (join2_plain _ sub_folder).
  - rewrite join2_plain.
    + now rewrite !append_assoc.
    + apply append_nonempty_r, append_nonempty_r. apply Hs.
    + rewrite endswith_slash_app.
      * rewrite endswith_slash_app; [|apply Hs].
        now apply plain_no_trailing_slash.
      * apply append_nonempty_r. apply Hs.
    + now apply plain_app_not_absolute.
  - now apply append_nonempty_r.
  - now rewrite endswith_slash_app.
  - now apply plain_not_absolute.
Qed.

End Paths.

(** ** Results: computation rules *)

Lemma bind_Ok {A B} (a : A) (f : A -> result B) : (x ← Ok a; f x) = f a.
Proof. reflexivity. Qed.

Lemma bind_Raise {A B} (e : exn) (f : A -> result B) :
  (x ← Raise e; f x) = Raise e.
Proof. reflexivity. Qed.

Lemma mapM_nil {A B} (f : A -> result B) : mapM f [] = Ok [].
Proof. reflexivity. Qed.

Lemma mapM_cons {A B} (f : A -> result B) x l :
  mapM f (x :: l) = (y ← f x; k ← mapM f l; Ok (y :: k)).
Proof. reflexivity. Qed.

(** [mapM] succeeds with [k] when [f] maps the items of [l] to those of
    [k], one by one. *)
Lemma mapM_Ok_Forall2 {A B} (f : A -> result B) l k :
  Forall2 (fun x y => f x = Ok y) l k -> mapM f l = Ok k.
Proof.
  induction 1 as [|x y l k Hxy _ IH]; [reflexivity|].
  rewrite mapM_cons, Hxy, bind_Ok, IH. reflexivity.
Qed.

Lemma mapM_Ok_inv {A B} (f : A -> result B) l k :
  mapM f l = Ok k -> Forall2 (fun x y => f x = Ok y) l k.
Proof.
  revert k. induction l as [|x l IH]; intros k H.
  - injection H as <-. constructor.
  - rewrite mapM_cons in H. destruct (f x) as [y|e] eqn:Ex; [|discriminate].
    rewrite bind_Ok in H. destruct (mapM f l) as [k'|e]; [|discriminate].
    injection H as <-. constructor; auto.
Qed.

(** ** The asset resolver *)

Section AssetResolver.

Variable settings : Config.
Variable fs : filesystem.

Lemma find_asset_first fname l q pre entry post :
  Forall (entry_not_named l) pre ->
  asset_entry l q entry ->
  find_asset fname l (pre ++ entry :: post) = Ok (DataAsset.mk fname q).
Proof.
  intros Hpre [Hn Hq]. induction Hpre as [|x pre (nm & Hx & Hne) _ IH].
  - simpl. rewrite Hn, bind_Ok. simpl. rewrite String.eqb_refl.
    rewrite Hq. reflexivity.
  - simpl. rewrite Hx, bind_Ok, Hne. exact IH.
Qed.

Lemma find_asset_none fname l entries :
  Forall (entry_not_named l) entries ->
  find_asset fname l entries = Raise (AssetNotFound fname).
Proof.
  induction 1 as [|x entries (nm & Hx & Hne) _ IH]; [reflexivity|].
  simpl. rewrite Hx, bind_Ok, Hne. exact IH.
Qed.

(** [select_asset] on a name with one dot: the group names the
    resource, the leaf is searched among its entries. *)
Lemma select_asset_split g l :
  Str.count "." g = 0 -> Str.count "." l = 0 ->
  select_asset settings fs (g +:+ "." +:+ l)
  = (doc ← open_load fs (asset_path settings g);
     assets ← Py.getitem doc "data_assets";
     entries ← Py.iter assets;
     find_asset (g +:+ "." +:+ l) l entries).
Proof.
  intros Hg Hl. unfold select_asset.
  change (g +:+ "." +:+ l) with (g +:+ String "." l).
  rewrite (split_join "." g l Hg Hl). reflexivity.
Qed.

End AssetResolver.

(** C1. For a composite name [g.l] (neither part contains a dot) whose
    resource [resources/data_assets/<g>.yml] exists and lists, under
    [data_assets], an entry named [l], [select_asset] returns the
    [DataAsset] whose [name] is the whole composite name and whose [query]
    is the query of that entry (the first one named [l]). *)
Theorem select_asset_keeps_composite_name
    (settings : Config) (fs : filesystem) (g l q : string)
    (doc : yaml) (pre post : list yaml) (entry : yaml) :
  Str.count "." g = 0 ->
  Str.count "." l = 0 ->
  fs_open fs (asset_path settings g) = Some doc ->
  Py.getitem doc "data_assets" = Ok (YList (pre ++ entry :: post)) ->
  Forall (entry_not_named l) pre ->
  asset_entry l q entry ->
  select_asset settings fs (g +:+ "." +:+ l)
  = Ok (DataAsset.mk (g +:+ "." +:+ l) q).
Proof.
  intros Hg Hl Hopen Hassets Hpre Hentry.
  rewrite select_asset_split by assumption.
  unfold open_load. rewrite Hopen, bind_Ok, Hassets, bind_Ok.
  simpl Py.iter. rewrite bind_Ok.
  now apply find_asset_first.
Qed.

Lemma select_asset_keeps_composite_name_witness :
  select_asset Sample.settings Sample.fs "way4.acc"
  = Ok (DataAsset.mk "way4.acc" "select 2").
Proof.
  apply (select_asset_keeps_composite_name Sample.settings Sample.fs
           "way4" "acc" "select 2" Sample.way4_yml
           [YMap [("name", YStr "doc"); ("query", YStr "select 1")]] []
           (YMap [("name", YStr "acc"); ("query", YStr "select 2")])).
  - reflexivity.
  - reflexivity.
  - vm_compute. reflexivity.
  - reflexivity.
  - constructor; [|constructor]. exists (YStr "doc"). split; reflexivity.
  - split; reflexivity.
Defined.

(** ** The suite resolver *)

Lemma build_expectation_entry entry x :
  expectation_entry entry x -> build_expectation entry = Ok x.
Proof.
  intros [Ht Hk]. unfold build_expectation.
  rewrite Ht, bind_Ok, Hk, bind_Ok. simpl. now destruct x.
Qed.

Lemma getitem_get doc k v : Py.getitem doc k = Ok v -> Py.get doc k = Ok v.
Proof.
  destruct doc; simpl; try discriminate.
  destruct (assoc k m); [|discriminate]. now intros [= ->].
Qed.

(** C4. When the resource [resources/suites/<suite_name>.yml] exists,
    [select_suite] returns the [Suite] named by the top-level [name] field
    of the resource, whatever the selector, with one [Expectation] per
    entry under [expectations], in the order of the resource. *)
Theorem select_suite_maps_resource
    (settings : Config) (fs : filesystem) (suite_name n : string)
    (doc : yaml) (entries : list yaml) (exps : list Expectation.t) :
  fs_open fs (suite_path settings (suite_name +:+ ".yml")) = Some doc ->
  Py.getitem doc "name" = Ok (YStr n) ->
  Py.getitem doc "expectations" = Ok (YList entries) ->
  Forall2 expectation_entry entries exps ->
  select_suite settings fs suite_name = Ok (Suite.mk n exps).
Proof.
  intros Hopen Hname Hexp Hentries.
  unfold select_suite, select_suite_file, open_load.
  rewrite Hopen, bind_Ok, (getitem_get _ _ _ Hexp), bind_Ok.
  simpl Py.iter. rewrite bind_Ok.
  rewrite (mapM_Ok_Forall2 build_expectation entries exps).
  - rewrite bind_Ok, Hname. reflexivity.
  - eapply Forall2_impl; [exact Hentries|].
    intros entry x. apply build_expectation_entry.
Qed.

Lemma select_suite_maps_resource_witness :
  select_suite Sample.settings Sample.fs "basic"
  = Ok (Suite.mk "basic_suite"
          [Expectation.mk "expect_column_to_exist" [("column", YStr "id")];
           Expectation.mk "expect_column_values_to_not_be_null"
             [("column", YStr "id")]])
  /\ "basic_suite" <> "basic".
Proof.
  split; [|discriminate].
  apply (select_suite_maps_resource Sample.settings Sample.fs
           "basic" "basic_suite" Sample.basic_yml
           [YMap [("expectation_type", YStr "expect_column_to_exist");
                  ("kwargs", YMap [("column", YStr "id")])];
            YMap [("expectation_type",
                   YStr "expect_column_values_to_not_be_null");
                  ("kwargs", YMap [("column", YStr "id")])]]).
  - vm_compute. reflexivity.
  - reflexivity.
  - reflexivity.
  - repeat constructor.
Defined.

(** ** Malformed names *)

(** C5. A name that does not have exactly one dot (so that it does not
    split into exactly two components) makes [select_asset] and
    [_select_job_by_filename] raise the unpacking error, which is the
    [MalformedNameError] of the specification, whatever the files are.
    When [select_asset] does split a name, the group is the text before
    its first dot and the leaf is the text after it. *)
Theorem malformed_name_raises
    (settings : Config) (fs : filesystem) (fname : string) :
  (Str.count "." fname <> 1 ->
   exists e,
     select_asset settings fs fname = Raise e
     /\ _select_job_by_filename settings fs fname = Raise e
     /\ e = UnpackError (S (Str.count "." fname))
     /\ kind_of e = MalformedNameError)
  /\ (forall g l,
        Py.unpack2 (Str.split "." fname) = Ok (g, l) ->
        fname = g +:+ "." +:+ l
        /\ Str.count "." g = 0
        /\ select_asset settings fs fname
           = (doc ← open_load fs (asset_path settings g);
              assets ← Py.getitem doc "data_assets";
              entries ← Py.iter assets;
              find_asset fname l entries)).
Proof.
  split.
  - intros H. exists (UnpackError (S (Str.count "." fname))).
    unfold select_asset, _select_job_by_filename.
    rewrite (unpack2_split_raise "." fname H).
    repeat split; reflexivity.
  - intros g l H.
    assert (Hs : Str.split "." fname = [g; l]).
    { destruct (Str.split "." fname) as [|a [|b [|c r]]]; try discriminate.
      now injection H as -> ->. }
    destruct (split_two_inv "." fname g l Hs) as (Hf & Hg & Hl).
    repeat split; [exact Hf|exact Hg|].
    unfold select_asset. rewrite Hs. reflexivity.
Qed.

Lemma malformed_name_raises_witness :
  (exists e,
     select_asset Sample.settings Sample.fs "badname" = Raise e
     /\ _select_job_by_filename Sample.settings Sample.fs "badname" = Raise e
     /\ e = UnpackError 1
     /\ kind_of e = MalformedNameError)
  /\ (exists e,
     select_asset Sample.settings Sample.fs "a.b.c" = Raise e
     /\ _select_job_by_filename Sample.settings Sample.fs "a.b.c" = Raise e
     /\ e = UnpackError 3
     /\ kind_of e = MalformedNameError).
Proof.
  split.
  - apply (proj1 (malformed_name_raises Sample.settings Sample.fs "badname")).
    vm_compute. discriminate.
  - apply (proj1 (malformed_name_raises Sample.settings Sample.fs "a.b.c")).
    vm_compute. discriminate.
Defined.

(** ** Selection by file name *)

(** C8. For a qualified name [sub_folder.job_name],
    [_select_job_by_filename] loads the resource
    [resources/jobs/<sub_folder>/<job_name>.yml].  It raises
    [FileNotFoundError] when the file does not exist and the "No job
    found for filename" error when the file loads to no data; both are the
    [ResourceNotFoundError] of the specification.  Otherwise it returns
    what [handle_job_data] assembles from the loaded document. *)
Theorem select_job_by_filename_resource
    (settings : Config) (fs : filesystem) (sub_folder job_name : string) :
  Str.count "." sub_folder = 0 ->
  Str.count "." job_name = 0 ->
  (fs_open fs (job_path settings sub_folder job_name) = None ->
   exists e,
     _select_job_by_filename settings fs (sub_folder +:+ "." +:+ job_name)
     = Raise e
     /\ e = FileNotFoundError (job_path settings sub_folder job_name)
     /\ kind_of e = ResourceNotFoundError)
  /\ (forall doc,
        fs_open fs (job_path settings sub_folder job_name) = Some doc ->
        Py.truthy doc = false ->
        exists e,
          _select_job_by_filename settings fs (sub_folder +:+ "." +:+ job_name)
          = Raise e
          /\ e = NoJobForFilename (sub_folder +:+ "." +:+ job_name)
          /\ kind_of e = ResourceNotFoundError)
  /\ (forall doc,
        fs_open fs (job_path settings sub_folder job_name) = Some doc ->
        Py.truthy doc = true ->
        _select_job_by_filename settings fs (sub_folder +:+ "." +:+ job_name)
        = handle_job_data settings fs doc)
  /\ Py.truthy YNull = false.
Proof.
  intros Hs Hj.
  assert (E : _select_job_by_filename settings fs
                (sub_folder +:+ "." +:+ job_name)
              = (job_data ← open_load fs (job_path settings sub_folder job_name);
                 if Py.truthy job_data
                 then handle_job_data settings fs job_data
                 else Raise (NoJobForFilename
                               (sub_folder +:+ "." +:+ job_name)))).
  { unfold _select_job_by_filename.
    change (sub_folder +:+ "." +:+ job_name)
      with (sub_folder +:+ String "." job_name).
    rewrite (split_join "." sub_folder job_name Hs Hj). reflexivity. }
  rewrite E. unfold open_load. repeat split.
  - intros Hopen. eexists. rewrite Hopen. repeat split.
  - intros doc Hopen Ht. eexists. rewrite Hopen, bind_Ok, Ht. repeat split.
  - intros doc Hopen Ht. now rewrite Hopen, bind_Ok, Ht.
Qed.

Lemma select_job_by_filename_resource_witness :
  _select_job_by_filename Sample.settings Sample.fs "finance.nope"
  = Raise (FileNotFoundError "/proj/resources/jobs/finance/nope.yml")
  /\ _select_job_by_filename Sample.settings Sample.fs "finance.empty"
     = Raise (NoJobForFilename "finance.empty")
  /\ _select_job_by_filename Sample.settings Sample.fs "finance.weekly"
     = handle_job_data Sample.settings Sample.fs Sample.weekly_yml.
Proof.
  split; [|split].
  - destruct (select_job_by_filename_resource Sample.settings Sample.fs
                "finance" "nope" eq_refl eq_refl) as (H & _).
    destruct (H eq_refl) as (e & He & -> & _). exact He.
  - destruct (select_job_by_filename_resource Sample.settings Sample.fs
                "finance" "empty" eq_refl eq_refl) as (_ & H & _).
    destruct (H YNull eq_refl eq_refl) as (e & He & -> & _). exact He.
  - destruct (select_job_by_filename_resource Sample.settings Sample.fs
                "finance" "weekly" eq_refl eq_refl) as (_ & _ & H & _).
    exact (H Sample.weekly_yml eq_refl eq_refl).
Defined.

(** ** Selection by tags *)

Section TagSelection.

Variable settings : Config.
Variable fs : filesystem.

Lemma all_tags_in_nil job_tags : all_tags_in job_tags [] = Ok true.
Proof. reflexivity. Qed.

Lemma all_tags_in_Some ts tags :
  all_tags_in (Some ts) tags = Ok (requested_in tags ts).
Proof.
  induction tags as [|tag tags IH]; [reflexivity|].
  simpl. destruct (existsb (String.eqb tag) ts); simpl; [exact IH|reflexivity].
Qed.

Lemma all_tags_in_None tags :
  tags <> [] -> all_tags_in None tags = Raise TypeError.
Proof. destruct tags; [contradiction|reflexivity]. Qed.

Lemma scan_cons tags file_path rest jobs :
  scan_job_files settings fs tags (file_path :: rest) jobs
  = (job ← load_job settings fs file_path;
     keep ← all_tags_in (Job.tags job) tags;
     scan_job_files settings fs tags rest
       (if keep : bool then jobs ++ [job] else jobs)).
Proof.
  unfold load_job. simpl.
  destruct (open_load fs file_path); reflexivity.
Qed.

Lemma scan_app tags p1 p2 jobs :
  scan_job_files settings fs tags (p1 ++ p2) jobs
  = (jobs' ← scan_job_files settings fs tags p1 jobs;
     scan_job_files settings fs tags p2 jobs').
Proof.
  revert jobs. induction p1 as [|p p1 IH]; intros jobs; [reflexivity|].
  rewrite <- app_comm_cons, !scan_cons.
  destruct (load_job settings fs p) as [job|e]; [|reflexivity].
  rewrite !bind_Ok.
  destruct (all_tags_in (Job.tags job) tags) as [keep|e]; [|reflexivity].
  rewrite !bind_Ok. apply IH.
Qed.

(** Whether the scan raises does not depend on the jobs kept so far. *)
Lemma scan_raise_any tags paths jobs jobs' e :
  scan_job_files settings fs tags paths jobs = Raise e ->
  scan_job_files settings fs tags paths jobs' = Raise e.
Proof.
  revert jobs jobs'. induction paths as [|p paths IH]; intros jobs jobs'.
  - discriminate.
  - rewrite !scan_cons.
    destruct (load_job settings fs p) as [job|e']; [|auto].
    rewrite !bind_Ok.
    destruct (all_tags_in (Job.tags job) tags) as [keep|e']; [|auto].
    rewrite !bind_Ok. apply IH.
Qed.

(** When every job file assembles into a job that has tags, the scan
    keeps the jobs whose tags cover the requested ones, in file order. *)
Lemma scan_all_tagged tags paths js jobs :
  mapM (load_job settings fs) paths = Ok js ->
  Forall (fun job => Job.tags job <> None) js ->
  scan_job_files settings fs tags paths jobs
  = Ok (jobs ++ List.filter (covers tags) js).
Proof.
  revert js jobs. induction paths as [|p paths IH]; intros js jobs Hm Ht.
  - injection Hm as <-. simpl. now rewrite app_nil_r.
  - rewrite mapM_cons in Hm. rewrite scan_cons.
    destruct (load_job settings fs p) as [job|e]; [|discriminate].
    rewrite bind_Ok in Hm |- *.
    destruct (mapM (load_job settings fs) paths) as [js'|e]; [|discriminate].
    injection Hm as <-. inversion Ht as [|? ? Hjob Hrest]; subst.
    simpl List.filter.
    destruct (Job.tags job) as [ts|] eqn:Ets; [|contradiction].
    replace (covers tags job) with (requested_in tags ts)
      by (unfold covers; now rewrite Ets).
    rewrite all_tags_in_Some, bind_Ok.
    rewrite (IH js' _ eq_refl Hrest).
    destruct (requested_in tags ts); [|reflexivity].
    now rewrite <- app_assoc.
Qed.

(** With no requested tag nothing is tested: every assembled job is
    kept, tagged or not. *)
Lemma scan_no_tags paths js jobs :
  mapM (load_job settings fs) paths = Ok js ->
  scan_job_files settings fs [] paths jobs = Ok (jobs ++ js).
Proof.
  revert js jobs. induction paths as [|p paths IH]; intros js jobs Hm.
  - injection Hm as <-. simpl. now rewrite app_nil_r.
  - rewrite mapM_cons in Hm. rewrite scan_cons.
    destruct (load_job settings fs p) as [job|e]; [|discriminate].
    rewrite bind_Ok in Hm |- *.
    destruct (mapM (load_job settings fs) paths) as [js'|e]; [|discriminate].
    injection Hm as <-.
    rewrite all_tags_in_nil, bind_Ok, (IH js' _ eq_refl).
    now rewrite <- app_assoc.
Qed.

(** Selection by tags over a tree in which every job has tags: the
    jobs whose tags cover the requested ones, or the "No job found for
    tags" error when there is none. *)
Lemma select_jobs_by_tags_all_tagged tags js :
  mapM (load_job settings fs) (job_files settings fs) = Ok js ->
  Forall (fun job => Job.tags job <> None) js ->
  _select_jobs_by_tags settings fs tags
  = match List.filter (covers tags) js with
    | [] => Raise (NoJobForTags tags)
    | kept => Ok kept
    end.
Proof.
  intros Hm Ht. unfold _select_jobs_by_tags.
  rewrite (scan_all_tagged tags _ js [] Hm Ht), bind_Ok, app_nil_l.
  destruct (List.filter (covers tags) js); reflexivity.
Qed.

End TagSelection.

Lemma mapM_Ok_length {A B} (f : A -> result B) l k :
  mapM f l = Ok k -> length k = length l.
Proof.
  intros H. apply mapM_Ok_inv in H.
  induction H; simpl; congruence.
Qed.

(** The tags of an assembled job are the validated [tags] field of the
    document. *)
Lemma handle_job_data_tags settings fs doc job tg :
  handle_job_data settings fs doc = Ok job ->
  Py.get doc "tags" = Ok tg ->
  Py.optional_str_list tg = Ok (Job.tags job).
Proof.
  unfold handle_job_data. intros H Htg.
  destruct (Py.get doc "runs") as [rs|]; [|discriminate].
  rewrite bind_Ok in H.
  destruct (Py.iter rs) as [entries|]; [|discriminate].
  rewrite bind_Ok in H.
  destruct (mapM (build_run settings fs) entries) as [rns|]; [|discriminate].
  rewrite bind_Ok in H.
  destruct (Py.get doc "name") as [nm|]; [|discriminate].
  rewrite bind_Ok, Htg, bind_Ok in H.
  destruct (Py.strict_str nm) as [nm'|]; [|discriminate].
  rewrite bind_Ok in H.
  destruct (Py.optional_str_list tg) as [tg'|]; [|discriminate].
  rewrite bind_Ok in H. now injection H as <-.
Qed.

(** C6. With an empty list of requested tags, and job files that all
    assemble, [_select_jobs_by_tags] keeps every job (no membership test
    is made, so no job is filtered out) and returns them all as soon as
    there is one job file. *)
Theorem select_jobs_by_no_tags
    (settings : Config) (fs : filesystem) (js : list Job.t) :
  mapM (load_job settings fs) (job_files settings fs) = Ok js ->
  job_files settings fs <> [] ->
  _select_jobs_by_tags settings fs [] = Ok js.
Proof.
  intros Hm Hne. unfold _select_jobs_by_tags.
  rewrite (scan_no_tags settings fs _ js [] Hm), bind_Ok, app_nil_l.
  pose proof (mapM_Ok_length _ _ _ Hm) as Hlen.
  destruct js as [|j js]; [|reflexivity].
  destruct (job_files settings fs); [contradiction|discriminate].
Qed.

Lemma select_jobs_by_no_tags_witness :
  exists daily weekly untagged,
    _select_jobs_by_tags Sample.settings Sample.fs_untagged []
    = Ok [daily; weekly; untagged]
    /\ Job.tags daily = Some ["nightly"; "finance"]
    /\ Job.tags weekly = Some ["finance"]
    /\ Job.tags untagged = None.
Proof.
  destruct (mapM (load_job Sample.settings Sample.fs_untagged)
              (job_files Sample.settings Sample.fs_untagged))
    as [[|daily [|weekly [|untagged [|]]]]|] eqn:E;
    try (vm_compute in E; discriminate).
  exists daily, weekly, untagged. split.
  - apply (select_jobs_by_no_tags Sample.settings Sample.fs_untagged).
    + exact E.
    + vm_compute. discriminate.
  - vm_compute in E. injection E as <- <- <-. repeat split.
Defined.

(** C9. A job file that assembles but defines no [tags] makes every
    selection by a non-empty list of tags raise: the membership test is
    applied to the absent tags.  The error is the [TypeError] of that test
    whenever the files visited before it pass. *)
Theorem untagged_job_breaks_tag_selection
    (settings : Config) (fs : filesystem) (tags : list string)
    (pre post : list string) (file_path : string) (doc : yaml) (job : Job.t) :
  tags <> [] ->
  job_files settings fs = pre ++ file_path :: post ->
  fs_open fs file_path = Some doc ->
  Py.get doc "tags" = Ok YNull ->
  handle_job_data settings fs doc = Ok job ->
  Job.tags job = None
  /\ (exists e, _select_jobs_by_tags settings fs tags = Raise e)
  /\ (forall kept,
        scan_job_files settings fs tags pre [] = Ok kept ->
        _select_jobs_by_tags settings fs tags = Raise TypeError).
Proof.
  intros Htags Hfiles Hopen Hnotags Hjob.
  assert (Hnone : Job.tags job = None).
  { pose proof (handle_job_data_tags _ _ _ _ _ Hjob Hnotags) as H.
    simpl in H. now injection H as <-. }
  assert (Hhere : forall jobs,
             scan_job_files settings fs tags (file_path :: post) jobs
             = Raise TypeError).
  { intros jobs. rewrite scan_cons. unfold load_job, open_load.
    rewrite Hopen, bind_Ok, Hjob, bind_Ok, Hnone.
    now rewrite (all_tags_in_None tags Htags). }
  assert (Hscan : scan_job_files settings fs tags (job_files settings fs) []
                  = (jobs' ← scan_job_files settings fs tags pre [];
                     Raise TypeError)).
  { rewrite Hfiles, scan_app.
    destruct (scan_job_files settings fs tags pre []); [|reflexivity].
    rewrite !bind_Ok. apply Hhere. }
  unfold _select_jobs_by_tags. rewrite Hscan.
  split; [exact Hnone|split].
  - destruct (scan_job_files settings fs tags pre []) as [kept|e].
    + exists TypeError. reflexivity.
    + exists e. reflexivity.
  - intros kept ->. reflexivity.
Qed.

Lemma untagged_job_breaks_tag_selection_witness :
  _select_jobs_by_tags Sample.settings Sample.fs_untagged ["finance"]
  = Raise TypeError.
Proof.
  destruct (handle_job_data Sample.settings Sample.fs_untagged
              Sample.untagged_yml) as [job|] eqn:E;
    [|vm_compute in E; discriminate].
  refine (proj2 (proj2 (untagged_job_breaks_tag_selection
            Sample.settings Sample.fs_untagged ["finance"]
            ["/proj/resources/jobs/finance/daily_recon.yml";
             "/proj/resources/jobs/finance/weekly.yml"] []
            "/proj/resources/jobs/finance/untagged.yml"
            Sample.untagged_yml job _ _ _ _ E)) _ _).
  - discriminate.
  - vm_compute. reflexivity.
  - vm_compute. reflexivity.
  - reflexivity.
  - vm_compute. reflexivity.
Defined.

(** C2, evaluated on a tree with an untagged job file.  In the tree whose
    only job file has no tags no job matches the requested tag, and the
    selection raises the [TypeError] of the membership test, not the "No
    job found for tags" error.  In the tree with two tagged jobs before the
    untagged one, both tagged jobs cover the requested tag, and the
    selection raises all the same instead of returning them. *)
Theorem select_jobs_by_tags_untagged_tree :
  _select_jobs_by_tags Sample.settings Sample.fs_only_untagged ["finance"]
  = Raise TypeError
  /\ kind_of TypeError <> NoMatchError
  /\ _select_jobs_by_tags Sample.settings Sample.fs ["finance"]
     = (daily ← load_job Sample.settings Sample.fs
                  "/proj/resources/jobs/finance/daily_recon.yml";
        weekly ← load_job Sample.settings Sample.fs
                   "/proj/resources/jobs/finance/weekly.yml";
        Ok [daily; weekly])
  /\ is_ok (_select_jobs_by_tags Sample.settings Sample.fs ["finance"]) = true
  /\ _select_jobs_by_tags Sample.settings Sample.fs_untagged ["finance"]
     = Raise TypeError.
Proof.
  repeat split; try (vm_compute; reflexivity). discriminate.
Qed.

(** ** Assembling the validations *)

Lemma result_unit_cases (r : result unit) :
  r = Ok tt \/ exists e, r = Raise e.
Proof. destruct r as [[]|e]; [now left|right; now exists e]. Qed.

Section Loops.

Context {B : Type}.
Variable body : build_state -> B -> build_state * result unit.

Lemma for_each_cons_Ok b l st :
  snd (body st b) = Ok tt ->
  for_each body (b :: l) st = for_each body l (fst (body st b)).
Proof. simpl. destruct (body st b) as [st' r]. simpl. now intros ->. Qed.

Lemma for_each_cons_Raise b l st e :
  snd (body st b) = Raise e ->
  for_each body (b :: l) st = (fst (body st b), Raise e).
Proof. simpl. destruct (body st b) as [st' r]. simpl. now intros ->. Qed.

(** A loop that returns has run its body on every item, each returning:
    the first item, then the rest from the state the first left. *)
Lemma for_each_Ok_cons b l st :
  snd (for_each body (b :: l) st) = Ok tt ->
  snd (body st b) = Ok tt
  /\ snd (for_each body l (fst (body st b))) = Ok tt.
Proof.
  destruct (result_unit_cases (snd (body st b))) as [H|[e H]].
  - rewrite (for_each_cons_Ok b l st H). auto.
  - rewrite (for_each_cons_Raise b l st e H). discriminate.
Qed.

(** What every step keeps, the loop keeps, however it ends. *)
Lemma for_each_preserves (P : build_state -> Prop) l :
  (forall st b, In b l -> P st -> P (fst (body st b))) ->
  forall st, P st -> P (fst (for_each body l st)).
Proof.
  induction l as [|b l IH]; intros Hf st Hst; [exact Hst|].
  destruct (result_unit_cases (snd (body st b))) as [H|[e H]].
  - rewrite (for_each_cons_Ok b l st H). apply IH.
    + intros st' b' Hin. apply Hf. now right.
    + apply Hf; [now left|exact Hst].
  - rewrite (for_each_cons_Raise b l st e H). simpl.
    apply Hf; [now left|exact Hst].
Qed.

(** A quantity that every returning step updates by [u] is, after a
    loop that returns, the fold of [u]. *)
Lemma for_each_Ok_fold {X : Type} (I : build_state -> Prop)
    (g : build_state -> X) (u : X -> B -> X) l :
  (forall st b, In b l -> I st -> I (fst (body st b))) ->
  (forall st b, In b l -> I st -> snd (body st b) = Ok tt ->
                g (fst (body st b)) = u (g st) b) ->
  forall st, I st -> snd (for_each body l st) = Ok tt ->
             g (fst (for_each body l st)) = fold_left u l (g st).
Proof.
  induction l as [|b l IH]; intros HI Hg st Hst Hok; [reflexivity|].
  destruct (for_each_Ok_cons b l st Hok) as (Hb & Hl).
  rewrite (for_each_cons_Ok b l st Hb). simpl.
  rewrite <- (Hg st b (or_introl eq_refl) Hst Hb). apply IH.
  - intros st' b' Hin. apply HI. now right.
  - intros st' b' Hin. apply Hg. now right.
  - apply HI; [now left|exact Hst].
  - exact Hl.
Qed.

(** What holds of every item whose step returns holds of all the items
    of a loop that returns. *)
Lemma for_each_Ok_Forall (Q : B -> Prop) l :
  (forall st b, In b l -> snd (body st b) = Ok tt -> Q b) ->
  forall st, snd (for_each body l st) = Ok tt -> Forall Q l.
Proof.
  induction l as [|b l IH]; intros HQ st Hok; [constructor|].
  destruct (for_each_Ok_cons b l st Hok) as (Hb & Hl).
  constructor.
  - apply (HQ st b); [now left|exact Hb].
  - apply (IH (fun st' b' Hin => HQ st' b' (or_intror Hin)) _ Hl).
Qed.

(** A loop whose steps all return, under an invariant, returns, and
    the invariant holds at its end. *)
Lemma for_each_all_Ok (I : build_state -> Prop) l :
  (forall st b, In b l -> I st ->
                snd (body st b) = Ok tt /\ I (fst (body st b))) ->
  forall st, I st ->
             snd (for_each body l st) = Ok tt /\ I (fst (for_each body l st)).
Proof.
  induction l as [|b l IH]; intros H st Hst; [now split|].
  destruct (H st b (or_introl eq_refl) Hst) as (Hb & HI).
  rewrite (for_each_cons_Ok b l st Hb). apply IH; [|exact HI].
  intros st' b' Hin. apply H. now right.
Qed.

End Loops.

Lemma fold_left_app_flat_map {A B} (f : B -> list A) l v :
  fold_left (fun v b => v ++ f b) l v = v ++ flat_map f l.
Proof.
  revert v. induction l as [|b l IH]; intros v; simpl.
  - now rewrite app_nil_r.
  - now rewrite IH, app_assoc.
Qed.

Lemma fold_left_flat_map {A B X} (u : X -> A -> X) (f : B -> list A) l x :
  fold_left u (flat_map f l) x = fold_left (fun x b => fold_left u (f b) x) l x.
Proof.
  revert x. induction l as [|b l IH]; intros x; simpl; [reflexivity|].
  now rewrite fold_left_app, IH.
Qed.

Lemma fold_left_const_map {A B X} (u : X -> B -> X) (b : B) (l : list A) x :
  fold_left (fun x _ => u x b) l x = fold_left u (map (fun _ => b) l) x.
Proof.
  revert x. induction l as [|a l IH]; intros x; simpl; [reflexivity|].
  now rewrite IH.
Qed.

Lemma flat_map_singleton {A B} (f : A -> B) l :
  flat_map (fun a => [f a]) l = map f l.
Proof. induction l as [|a l IH]; simpl; [reflexivity|now rewrite IH]. Qed.

Section Assembler.

Variable rt : Runtime.

(** *** One data asset *)

Lemma validate_asset_source run st a :
  ds_name (bs_data_source (fst (validate_asset rt run st a)))
  = ds_name (bs_data_source st)
  /\ ds_connection_string (bs_data_source (fst (validate_asset rt run st a)))
     = ds_connection_string (bs_data_source st).
Proof.
  unfold validate_asset, get_asset, add_query_asset.
  destruct (ds_assets (bs_data_source st) !! DataAsset.name a); simpl.
  - destruct (build_suite rt (bs_context st) (Run.suite run)) as [c [n|e]];
      auto.
  - destruct (add_query_asset_error rt _ _ _); simpl; [auto|].
    destruct (build_suite rt (bs_context st) (Run.suite run)) as [c [n|e]];
      auto.
Qed.

Lemma build_suite_Ok context suite_config :
  snd (build_suite rt context suite_config) = Ok (Suite.name suite_config)
  \/ exists e, snd (build_suite rt context suite_config) = Raise e.
Proof.
  unfold build_suite.
  destruct (add_expectations rt [] (Suite.expectations suite_config));
    simpl; eauto.
Qed.

(** What a returning step adds: the descriptor of the asset, the asset on
    the data source unless its name is taken, the suite of the run in the
    context. *)
Lemma validate_asset_Ok run st a :
  snd (validate_asset rt run st a) = Ok tt ->
  bs_validations (fst (validate_asset rt run st a))
  = bs_validations st ++ [descriptor (ds_name (bs_data_source st)) run a]
  /\ ds_assets (bs_data_source (fst (validate_asset rt run st a)))
     = register_missing (ds_assets (bs_data_source st)) a
  /\ ctx_suites (bs_context (fst (validate_asset rt run st a)))
     = register_suite rt (ctx_suites (bs_context st)) run
  /\ is_ok (add_expectations rt [] (Suite.expectations (Run.suite run)))
     = true.
Proof.
  unfold validate_asset, get_asset, add_query_asset, register_missing,
    register_suite, build_suite, store_suite.
  destruct (ds_assets (bs_data_source st) !! DataAsset.name a); simpl.
  - destruct (add_expectations rt [] (Suite.expectations (Run.suite run)));
      simpl; [|discriminate].
    intros _. now rewrite insert_insert_eq.
  - destruct (add_query_asset_error rt _ _ _); simpl; [discriminate|].
    destruct (add_expectations rt [] (Suite.expectations (Run.suite run)));
      simpl; [|discriminate].
    intros _. now rewrite insert_insert_eq.
Qed.

(** What every step keeps, returning or not. *)
Lemma validate_asset_keeps run st a n q :
  ds_assets (bs_data_source st) !! n = Some q ->
  ds_assets (bs_data_source (fst (validate_asset rt run st a))) !! n = Some q.
Proof.
  unfold validate_asset, get_asset, add_query_asset. intros H.
  destruct (ds_assets (bs_data_source st) !! DataAsset.name a) eqn:E; simpl.
  - now destruct (build_suite rt (bs_context st) (Run.suite run)) as [c [?|?]].
  - destruct (add_query_asset_error rt _ _ _); simpl; [exact H|].
    assert (Hne : DataAsset.name a <> n) by congruence.
    destruct (build_suite rt (bs_context st) (Run.suite run)) as [c [?|?]];
      simpl; now rewrite lookup_insert_ne.
Qed.

Lemma validate_asset_other run st a n :
  DataAsset.name a <> n ->
  ds_assets (bs_data_source (fst (validate_asset rt run st a))) !! n
  = ds_assets (bs_data_source st) !! n.
Proof.
  unfold validate_asset, get_asset, add_query_asset. intros Hne.
  destruct (ds_assets (bs_data_source st) !! DataAsset.name a) eqn:E; simpl.
  - now destruct (build_suite rt (bs_context st) (Run.suite run)) as [c [?|?]].
  - destruct (add_query_asset_error rt _ _ _); simpl; [reflexivity|].
    destruct (build_suite rt (bs_context st) (Run.suite run)) as [c [?|?]];
      simpl; now rewrite lookup_insert_ne.
Qed.

(** *** One run, one job, all the jobs *)

Lemma validate_run_source st run :
  ds_name (bs_data_source (fst (validate_run rt st run)))
  = ds_name (bs_data_source st)
  /\ ds_connection_string (bs_data_source (fst (validate_run rt st run)))
     = ds_connection_string (bs_data_source st).
Proof.
  unfold validate_run.
  apply (for_each_preserves (validate_asset rt run)
           (fun st' => ds_name (bs_data_source st')
                       = ds_name (bs_data_source st)
                       /\ ds_connection_string (bs_data_source st')
                          = ds_connection_string (bs_data_source st)));
    [|auto].
  intros st' a _ [<- <-]. apply validate_asset_source.
Qed.

Lemma validate_job_source st job :
  ds_name (bs_data_source (fst (validate_job rt st job)))
  = ds_name (bs_data_source st)
  /\ ds_connection_string (bs_data_source (fst (validate_job rt st job)))
     = ds_connection_string (bs_data_source st).
Proof.
  unfold validate_job.
  apply (for_each_preserves (validate_run rt)
           (fun st' => ds_name (bs_data_source st')
                       = ds_name (bs_data_source st)
                       /\ ds_connection_string (bs_data_source st')
                          = ds_connection_string (bs_data_source st)));
    [|auto].
  intros st' run _ [<- <-]. apply validate_run_source.
Qed.

Lemma validate_jobs_source st jobs :
  ds_name (bs_data_source (fst (for_each (validate_job rt) jobs st)))
  = ds_name (bs_data_source st)
  /\ ds_connection_string
       (bs_data_source (fst (for_each (validate_job rt) jobs st)))
     = ds_connection_string (bs_data_source st).
Proof.
  apply (for_each_preserves (validate_job rt)
           (fun st' => ds_name (bs_data_source st')
                       = ds_name (bs_data_source st)
                       /\ ds_connection_string (bs_data_source st')
                          = ds_connection_string (bs_data_source st)));
    [|auto].
  intros st' job _ [<- <-]. apply validate_job_source.
Qed.

(** What a run that returns adds. *)
Lemma validate_run_Ok st run :
  snd (validate_run rt st run) = Ok tt ->
  bs_validations (fst (validate_run rt st run))
  = bs_validations st
      ++ map (descriptor (ds_name (bs_data_source st)) run)
             (Run.data_assets run)
  /\ ds_assets (bs_data_source (fst (validate_run rt st run)))
     = fold_left register_missing (Run.data_assets run)
         (ds_assets (bs_data_source st))
  /\ ctx_suites (bs_context (fst (validate_run rt st run)))
     = fold_left (register_suite rt)
         (map (fun _ => run) (Run.data_assets run))
         (ctx_suites (bs_context st))
  /\ (Run.data_assets run <> [] ->
      is_ok (add_expectations rt [] (Suite.expectations (Run.suite run)))
      = true).
Proof.
  unfold validate_run. intros Hok.
  set (I := fun st' : build_state =>
              ds_name (bs_data_source st') = ds_name (bs_data_source st)).
  assert (HI : forall st' a, In a (Run.data_assets run) -> I st' ->
                             I (fst (validate_asset rt run st' a))).
  { intros st' a _ H. unfold I in *.
    etransitivity; [apply validate_asset_source|exact H]. }
  split; [|split; [|split]].
  - rewrite (for_each_Ok_fold (validate_asset rt run) I bs_validations
               (fun v a => v ++ [descriptor (ds_name (bs_data_source st))
                                   run a])
               _ HI); [| |reflexivity|exact Hok].
    + now rewrite fold_left_app_flat_map, flat_map_singleton.
    + intros st' a _ HIst H. unfold I in HIst. rewrite <- HIst.
      now apply validate_asset_Ok.
  - apply (for_each_Ok_fold (validate_asset rt run) I
             (fun st' => ds_assets (bs_data_source st')) register_missing
             _ HI); [|reflexivity|exact Hok].
    intros st' a _ _ H. now apply validate_asset_Ok.
  - rewrite <- fold_left_const_map.
    apply (for_each_Ok_fold (validate_asset rt run) I
             (fun st' => ctx_suites (bs_context st'))
             (fun m _ => register_suite rt m run)
             _ HI); [|reflexivity|exact Hok].
    intros st' a _ _ H. now apply validate_asset_Ok.
  - intros Hne.
    pose proof (for_each_Ok_Forall (validate_asset rt run)
                  (fun _ => is_ok (add_expectations rt []
                                     (Suite.expectations (Run.suite run)))
                            = true)
                  (Run.data_assets run)
                  (fun st' a _ H => proj2 (proj2 (proj2
                     (validate_asset_Ok run st' a H))))
                  st Hok) as Hall.
    destruct (Run.data_assets run); [now destruct Hne|].
    now inversion Hall.
Qed.

(** What a job that returns adds. *)
Lemma validate_job_Ok st job :
  snd (validate_job rt st job) = Ok tt ->
  bs_validations (fst (validate_job rt st job))
  = bs_validations st
      ++ flat_map (fun run =>
           map (descriptor (ds_name (bs_data_source st)) run)
               (Run.data_assets run)) (Job.runs job)
  /\ ds_assets (bs_data_source (fst (validate_job rt st job)))
     = fold_left register_missing (flat_map Run.data_assets (Job.runs job))
         (ds_assets (bs_data_source st))
  /\ ctx_suites (bs_context (fst (validate_job rt st job)))
     = fold_left (register_suite rt)
         (flat_map (fun run => map (fun _ => run) (Run.data_assets run))
                   (Job.runs job))
         (ctx_suites (bs_context st))
  /\ Forall (fun run =>
               Run.data_assets run <> [] ->
               is_ok (add_expectations rt []
                        (Suite.expectations (Run.suite run))) = true)
            (Job.runs job).
Proof.
  unfold validate_job. intros Hok.
  set (I := fun st' : build_state =>
              ds_name (bs_data_source st') = ds_name (bs_data_source st)).
  assert (HI : forall st' run, In run (Job.runs job) -> I st' ->
                               I (fst (validate_run rt st' run))).
  { intros st' run _ H. unfold I in *.
    etransitivity; [apply validate_run_source|exact H]. }
  split; [|split; [|split]].
  - rewrite (for_each_Ok_fold (validate_run rt) I bs_validations
               (fun v run => v ++ map (descriptor
                                         (ds_name (bs_data_source st)) run)
                                      (Run.data_assets run))
               _ HI); [| |reflexivity|exact Hok].
    + now rewrite fold_left_app_flat_map.
    + intros st' run _ HIst H. unfold I in HIst. rewrite <- HIst.
      now apply validate_run_Ok.
  - rewrite fold_left_flat_map.
    apply (for_each_Ok_fold (validate_run rt) I
             (fun st' => ds_assets (bs_data_source st'))
             (fun m run => fold_left register_missing (Run.data_assets run) m)
             _ HI); [|reflexivity|exact Hok].
    intros st' run _ _ H. now apply validate_run_Ok.
  - rewrite fold_left_flat_map.
    apply (for_each_Ok_fold (validate_run rt) I
             (fun st' => ctx_suites (bs_context st'))
             (fun m run => fold_left (register_suite rt)
                             (map (fun _ => run) (Run.data_assets run)) m)
             _ HI); [|reflexivity|exact Hok].
    intros st' run _ _ H. now apply validate_run_Ok.
  - apply (for_each_Ok_Forall (validate_run rt) _ (Job.runs job)
             (fun st' run _ H => proj2 (proj2 (proj2
                (validate_run_Ok st' run H)))) st Hok).
Qed.

(** What the loop over the jobs adds when it returns. *)
Lemma validate_jobs_Ok st jobs :
  snd (for_each (validate_job rt) jobs st) = Ok tt ->
  bs_validations (fst (for_each (validate_job rt) jobs st))
  = bs_validations st ++ descriptors (ds_name (bs_data_source st)) jobs
  /\ ds_assets (bs_data_source (fst (for_each (validate_job rt) jobs st)))
     = fold_left register_missing (all_assets jobs)
         (ds_assets (bs_data_source st))
  /\ ctx_suites (bs_context (fst (for_each (validate_job rt) jobs st)))
     = fold_left (register_suite rt) (asset_runs jobs)
         (ctx_suites (bs_context st))
  /\ Forall (fun job =>
       Forall (fun run =>
                 Run.data_assets run <> [] ->
                 is_ok (add_expectations rt []
                          (Suite.expectations (Run.suite run))) = true)
              (Job.runs job)) jobs.
Proof.
  intros Hok.
  set (I := fun st' : build_state =>
              ds_name (bs_data_source st') = ds_name (bs_data_source st)).
  assert (HI : forall st' job, In job jobs -> I st' ->
                               I (fst (validate_job rt st' job))).
  { intros st' job _ H. unfold I in *.
    etransitivity; [apply validate_job_source|exact H]. }
  split; [|split; [|split]].
  - rewrite (for_each_Ok_fold (validate_job rt) I bs_validations
               (fun v job => v ++ flat_map (fun run =>
                  map (descriptor (ds_name (bs_data_source st)) run)
                      (Run.data_assets run)) (Job.runs job))
               _ HI); [| |reflexivity|exact Hok].
    + now rewrite fold_left_app_flat_map.
    + intros st' job _ HIst H. unfold I in HIst. rewrite <- HIst.
      now apply validate_job_Ok.
  - unfold all_assets. rewrite fold_left_flat_map.
    apply (for_each_Ok_fold (validate_job rt) I
             (fun st' => ds_assets (bs_data_source st'))
             (fun m job => fold_left register_missing
                             (flat_map Run.data_assets (Job.runs job)) m)
             _ HI); [|reflexivity|exact Hok].
    intros st' job _ _ H. now apply validate_job_Ok.
  - unfold asset_runs. rewrite fold_left_flat_map.
    apply (for_each_Ok_fold (validate_job rt) I
             (fun st' => ctx_suites (bs_context st'))
             (fun m job => fold_left (register_suite rt)
                (flat_map (fun run => map (fun _ => run) (Run.data_assets run))
                          (Job.runs job)) m)
             _ HI); [|reflexivity|exact Hok].
    intros st' job _ _ H. now apply validate_job_Ok.
  - apply (for_each_Ok_Forall (validate_job rt) _ jobs
             (fun st' job _ H => proj2 (proj2 (proj2
                (validate_job_Ok st' job H)))) st Hok).
Qed.

(** *** A runtime that accepts everything *)

Lemma add_expectations_accepted suite l :
  (forall suite' x, is_ok (add_expectation rt suite' x) = true) ->
  is_ok (add_expectations rt suite l) = true.
Proof.
  intros Hx. revert suite. induction l as [|x l IH]; intros suite;
    [reflexivity|].
  simpl. specialize (Hx suite (Expectation.mk
                                 (Expectation.expectation_type x)
                                 (Expectation.kwargs x))).
  destruct (add_expectation rt suite _); [|discriminate]. apply IH.
Qed.

Lemma validate_jobs_accepted st jobs :
  (forall ds n q, add_query_asset_error rt ds n q = None) ->
  (forall suite x, is_ok (add_expectation rt suite x) = true) ->
  snd (for_each (validate_job rt) jobs st) = Ok tt.
Proof.
  intros Hq Hx.
  apply (for_each_all_Ok (validate_job rt) (fun _ => True)); [|exact I].
  intros st1 job _ _. split; [|exact I]. unfold validate_job.
  apply (for_each_all_Ok (validate_run rt) (fun _ => True)); [|exact I].
  intros st2 run _ _. split; [|exact I]. unfold validate_run.
  apply (for_each_all_Ok (validate_asset rt run) (fun _ => True)); [|exact I].
  intros st3 a _ _. split; [|exact I].
  unfold validate_asset, get_asset, add_query_asset, build_suite.
  pose proof (add_expectations_accepted []
                (Suite.expectations (Run.suite run)) Hx) as Hs.
  destruct (add_expectations rt [] (Suite.expectations (Run.suite run)));
    [|discriminate].
  destruct (ds_assets (bs_data_source st3) !! DataAsset.name a); simpl;
    [reflexivity|].
  now rewrite Hq.
Qed.

Lemma descriptors_length source jobs :
  length (descriptors source jobs) = asset_count jobs.
Proof.
  unfold descriptors, asset_count.
  induction jobs as [|job jobs IH]; simpl; [reflexivity|].
  rewrite length_app, IH. f_equal.
  induction (Job.runs job) as [|run l IHl]; simpl; [reflexivity|].
  now rewrite length_app, length_map, IHl.
Qed.

(** Registering keeps what is there. *)
Lemma register_missing_keeps assets l n q :
  assets !! n = Some q ->
  fold_left register_missing l assets !! n = Some q.
Proof.
  revert assets. induction l as [|a l IH]; intros assets H; [exact H|].
  simpl. apply IH. unfold register_missing.
  destruct (assets !! DataAsset.name a) eqn:E; [exact H|].
  rewrite lookup_insert_ne; [exact H|]. congruence.
Qed.

(** Registering never changes the query of a name that is taken, and
    it gives a free name the query of the first asset of that name. *)
Lemma register_missing_first assets pre a post :
  assets !! DataAsset.name a = None ->
  Forall (fun b => DataAsset.name b <> DataAsset.name a) pre ->
  fold_left register_missing (pre ++ a :: post) assets !! DataAsset.name a
  = Some (DataAsset.query a).
Proof.
  intros Hfree Hpre. revert assets Hfree.
  induction Hpre as [|b pre Hb _ IH]; intros assets Hfree; simpl.
  - apply register_missing_keeps. unfold register_missing.
    rewrite Hfree. apply lookup_insert_eq.
  - apply IH. unfold register_missing.
    destruct (assets !! DataAsset.name b); [exact Hfree|].
    now rewrite lookup_insert_ne.
Qed.

Lemma register_missing_present assets l a :
  In a l ->
  is_Some (fold_left register_missing l assets !! DataAsset.name a).
Proof.
  revert assets. induction l as [|b l IH]; intros assets; [contradiction|].
  intros [->|Hin]; simpl; [|now apply IH].
  destruct (register_missing assets a !! DataAsset.name a) as [q|] eqn:E.
  - exists q. now apply register_missing_keeps.
  - exfalso. unfold register_missing in E.
    destruct (assets !! DataAsset.name a) eqn:E'; [congruence|].
    now rewrite lookup_insert_eq in E.
Qed.

End Assembler.

(** C3. [build_validations] treats a single job as the list of that one
    job.  It returns when the runtime accepts every query asset and every
    expectation.  When it returns, it has appended one descriptor per data
    asset, in Job, Run, DataAsset nesting order, each pairing the batch
    request of the asset with the name of the suite of its run, so that the
    number of descriptors is the number of data assets across all runs of
    all jobs; every asset in the jobs is on the data source afterwards, and
    an asset whose name was missing has been created with the query of the
    first asset configured under that name: the failed lookup is not an
    error. *)
Theorem build_validations_nesting_order
    (rt : Runtime) (context : Context) (data_source : Datasource)
    (jobs : selection) :
  (forall job,
     build_validations rt context data_source (OneJob job)
     = build_validations rt context data_source (ManyJobs [job]))
  /\ ((forall ds n q, add_query_asset_error rt ds n q = None) ->
      (forall suite x, is_ok (add_expectation rt suite x) = true) ->
      snd (build_validations rt context data_source jobs) = Ok tt)
  /\ (snd (build_validations rt context data_source jobs) = Ok tt ->
      bs_validations (fst (build_validations rt context data_source jobs))
      = descriptors (ds_name data_source) (normalize_jobs jobs)
      /\ length (bs_validations
                   (fst (build_validations rt context data_source jobs)))
         = asset_count (normalize_jobs jobs)
      /\ (forall a,
            In a (all_assets (normalize_jobs jobs)) ->
            is_Some (ds_assets (bs_data_source
                       (fst (build_validations rt context data_source jobs)))
                     !! DataAsset.name a))
      /\ (forall pre a post,
            all_assets (normalize_jobs jobs) = pre ++ a :: post ->
            Forall (fun b => DataAsset.name b <> DataAsset.name a) pre ->
            ds_assets data_source !! DataAsset.name a = None ->
            ds_assets (bs_data_source
                         (fst (build_validations rt context data_source jobs)))
              !! DataAsset.name a
            = Some (DataAsset.query a))).
Proof.
  split; [reflexivity|]. unfold build_validations.
  split; [now apply validate_jobs_accepted|]. intros Hok.
  destruct (validate_jobs_Ok rt (mkBuildState context data_source [])
              (normalize_jobs jobs) Hok) as (Hv & Ha & _ & _).
  simpl in Hv, Ha.
  split; [exact Hv|]. split; [|split].
  - rewrite Hv. apply descriptors_length.
  - intros a Hin. rewrite Ha. now apply register_missing_present.
  - intros pre a post Hall Hpre Hfree. rewrite Ha, Hall.
    now apply register_missing_first.
Qed.

Lemma build_validations_nesting_order_witness :
  let source := mkDatasource "staging" "postgresql://db/staging" ∅ in
  let suite := Suite.mk "basic_suite" [] in
  let doc := DataAsset.mk "way4.doc" "select 1" in
  let acc := DataAsset.mk "way4.acc" "select 2" in
  let job := Job.mk "daily_recon" [Run.mk [doc; acc] suite; Run.mk [doc] suite]
               (Some ["nightly"]) in
  let st := fst (build_validations Sample.rt (mkContext ∅ ∅) source
                   (OneJob job)) in
  bs_validations st
  = [mkValidation (mkBatchRequest "staging" "way4.doc") "basic_suite";
     mkValidation (mkBatchRequest "staging" "way4.acc") "basic_suite";
     mkValidation (mkBatchRequest "staging" "way4.doc") "basic_suite"]
  /\ ds_assets (bs_data_source st) !! "way4.acc" = Some "select 2".
Proof.
  intros source suite doc acc job st.
  destruct (build_validations_nesting_order Sample.rt (mkContext ∅ ∅)
              source (OneJob job)) as (_ & Hret & Hres).
  destruct (Hres (Hret (fun _ _ _ => eq_refl) (fun _ _ => eq_refl)))
    as (Hv & _ & _ & Hc).
  subst st. split.
  - rewrite Hv. reflexivity.
  - apply (Hc [doc] acc [doc]).
    + reflexivity.
    + constructor; [discriminate|constructor].
    + reflexivity.
Defined.

(** ** The driver *)

Section DriverFacts.

Variable settings : Config.
Variable fs : filesystem.
Variable rt : Runtime.

Lemma main_no_selector args :
  supplied (arg_job_name args) = false ->
  supplied (arg_job_tags args) = false ->
  main settings fs rt args
  = match load_context rt (project_path settings) (env settings) with
    | Raise e => ([LoadContext], Raise (Wrapped e))
    | Ok context =>
        match load_data_source settings fs rt context "staging_postgres" with
        | Raise e => ([LoadContext; LoadDataSource], Raise (Wrapped e))
        | Ok _ => ([LoadContext; LoadDataSource], Raise (Wrapped NoSelector))
        end
    end.
Proof.
  intros Hn Ht. unfold main, try_block. rewrite Hn, Ht.
  destruct (load_context rt (project_path settings) (env settings))
    as [context|e]; [|reflexivity].
  simpl.
  destruct (load_data_source settings fs rt context "staging_postgres");
    reflexivity.
Qed.


End DriverFacts.

(** C7, as stated, does not hold: the driver does not require exactly
    one selector.  With both [--job_name] and [--job_tags] supplied it runs
    to the end and exits with status zero. *)
Lemma main_accepts_both_selectors :
  ~ (forall args,
       snd (main Sample.settings Sample.fs Sample.rt args) = Ok tt ->
       exactly_one_selector args = true).
Proof.
  intros H.
  specialize (H (Sample.args (Some "finance.daily_recon") (Some "finance"))).
  vm_compute in H. specialize (H eq_refl). discriminate.
Qed.

(** C7, amended. The driver requires at least one selector: when neither
    [--job_name] nor [--job_tags] is supplied it raises, and it has made
    no call but the loading of the context and of the data source: no job
    is selected, no validation is built, no checkpoint is run.  Once the
    context and the data source are loaded, the error is the "No job name
    or tags provided" exception, the [MissingSelectorError] of the
    specification, re-raised by the handler. *)
Theorem main_without_selector
    (settings : Config) (fs : filesystem) (rt : Runtime) (args : Args) :
  supplied (arg_job_name args) = false ->
  supplied (arg_job_tags args) = false ->
  (exists e, snd (main settings fs rt args) = Raise (Wrapped e))
  /\ (forall s, In s (fst (main settings fs rt args)) ->
                s = LoadContext \/ s = LoadDataSource)
  /\ (forall context data_source,
        load_context rt (project_path settings) (env settings) = Ok context ->
        load_data_source settings fs rt context "staging_postgres"
        = Ok data_source ->
        main settings fs rt args
        = ([LoadContext; LoadDataSource], Raise (Wrapped NoSelector))
        /\ kind_of (Wrapped NoSelector) = MissingSelectorError).
Proof.
  intros Hn Ht. rewrite (main_no_selector settings fs rt args Hn Ht).
  split; [|split].
  - destruct (load_context rt (project_path settings) (env settings))
      as [context|e]; [|eexists; reflexivity].
    destruct (load_data_source settings fs rt context "staging_postgres");
      eexists; reflexivity.
  - destruct (load_context rt (project_path settings) (env settings))
      as [context|e]; [|simpl; intuition].
    destruct (load_data_source settings fs rt context "staging_postgres");
      simpl; intuition.
  - intros context data_source Hc Hd. rewrite Hc, Hd. split; reflexivity.
Qed.

Lemma main_without_selector_witness :
  main Sample.settings Sample.fs Sample.rt (Sample.args None (Some ""))
  = ([LoadContext; LoadDataSource], Raise (Wrapped NoSelector)).
Proof.
  destruct (main_without_selector Sample.settings Sample.fs Sample.rt
              (Sample.args None (Some "")) eq_refl eq_refl) as (_ & _ & H).
  apply (H (mkContext ∅ ∅)
           (mkDatasource "staging" "postgresql://db/staging" ∅));
    reflexivity.
Defined.





(** * Further properties of the resolvers *)

(** ** Where the resources are read from *)

Lemma startswith_slash_app g t :
  Str.startswith "/" g = true -> Str.startswith "/" (g +:+ t) = true.
Proof.
  unfold Str.startswith. destruct g as [|c g]; [discriminate|].
  change (String.prefix "/" (String c g))
    with (if Ascii.ascii_dec "/" c then String.prefix "" g else false).
  change (String.prefix "/" (String c g +:+ t))
    with (if Ascii.ascii_dec "/" c then String.prefix "" (g +:+ t) else false).
  destruct (Ascii.ascii_dec "/" c); [|discriminate].
  intros _. now destruct (g +:+ t).
Qed.

Lemma join2_absolute path b :
  Str.startswith "/" b = true -> Path.join2 path b = b.
Proof. intros H. unfold Path.join2. now rewrite H. Qed.

(** X1. For a project root that is a directory path without a trailing
    slash and names that are plain (not empty, no slash), the three
    resolvers read [<root>/resources/data_assets/<group>.yml],
    [<root>/resources/suites/<suite>.yml] and
    [<root>/resources/jobs/<sub_folder>/<job>.yml]. *)
Theorem resource_paths_of_plain_names
    (settings : Config) (g n sub_folder job_name : string) :
  project_path settings <> "" ->
  Str.endswith "/" (project_path settings) = false ->
  plain g -> plain n -> plain sub_folder -> plain job_name ->
  asset_path settings g
  = project_path settings +:+ "/resources/data_assets/" +:+ g +:+ ".yml"
  /\ suite_path settings (n +:+ ".yml")
     = project_path settings +:+ "/resources/suites/" +:+ n +:+ ".yml"
  /\ job_path settings sub_folder job_name
     = project_path settings +:+ "/resources/jobs/" +:+ sub_folder
         +:+ "/" +:+ job_name +:+ ".yml".
Proof.
  intros Hne Hslash Hg Hn Hs Hj. split; [|split].
  - now apply asset_path_plain.
  - now apply suite_path_plain.
  - now apply job_path_plain.
Qed.

Lemma resource_paths_of_plain_names_witness :
  asset_path Sample.settings "way4" = "/proj/resources/data_assets/way4.yml"
  /\ suite_path Sample.settings ("basic" +:+ ".yml")
     = "/proj/resources/suites/basic.yml"
  /\ job_path Sample.settings "finance" "weekly"
     = "/proj/resources/jobs/finance/weekly.yml".
Proof.
  apply (resource_paths_of_plain_names Sample.settings
           "way4" "basic" "finance" "weekly");
    try (split; [discriminate|reflexivity]).
  - discriminate.
  - reflexivity.
Defined.

(** X2. A name that starts with a slash is an absolute path component:
    [os.path.join] drops the project root, and the resolvers read
    [<name>.yml] from the root of the file system, outside the project. *)
Theorem absolute_name_leaves_project
    (settings : Config) (sub_folder name : string) :
  Str.startswith "/" name = true ->
  asset_path settings name = name +:+ ".yml"
  /\ suite_path settings (name +:+ ".yml") = name +:+ ".yml"
  /\ job_path settings sub_folder name = name +:+ ".yml".
Proof.
  intros H. pose proof (startswith_slash_app name ".yml" H) as H'.
  unfold asset_path, suite_path, job_path, Path.join. cbn [fold_left].
  rewrite !(join2_absolute _ (name +:+ ".yml") H'). auto.
Qed.

Lemma absolute_name_leaves_project_witness :
  asset_path Sample.settings "/etc/assets" = "/etc/assets.yml"
  /\ suite_path Sample.settings ("/etc/assets" +:+ ".yml") = "/etc/assets.yml"
  /\ job_path Sample.settings "finance" "/etc/assets" = "/etc/assets.yml".
Proof.
  apply (absolute_name_leaves_project Sample.settings "finance" "/etc/assets").
  reflexivity.
Defined.

(** ** Failures and results of the asset resolver *)

Lemma find_asset_inv fname l entries a :
  find_asset fname l entries = Ok a ->
  DataAsset.name a = fname
  /\ exists entry, In entry entries /\ asset_entry l (DataAsset.query a) entry.
Proof.
  induction entries as [|x entries IH]; simpl; [discriminate|].
  destruct (Py.get x "name") as [nm|] eqn:Hnm; [|discriminate].
  rewrite bind_Ok. destruct (Py.eq_str nm l) eqn:Heq.
  - destruct (Py.getitem x "query") as [q|] eqn:Hq; [|discriminate].
    rewrite bind_Ok. destruct q; try discriminate. simpl.
    intros [= <-]. split; [reflexivity|].
    exists x. split; [now left|]. split; [|exact Hq].
    destruct nm; try discriminate. simpl in Heq.
    apply String.eqb_eq in Heq. now subst.
  - intros H. destruct (IH H) as (Hn & entry & Hin & He).
    split; [exact Hn|]. exists entry. split; [now right|exact He].
Qed.

Lemma find_asset_not_a_mapping fname l pre x post :
  Forall (entry_not_named l) pre ->
  Py.get x "name" = Raise AttributeError ->
  find_asset fname l (pre ++ x :: post) = Raise AttributeError.
Proof.
  intros Hpre Hx. induction Hpre as [|y pre (nm & Hy & Hne) _ IH]; simpl.
  - now rewrite Hx.
  - now rewrite Hy, bind_Ok, Hne.
Qed.

(** X3. [select_asset] on a composite name [g.l] fails when the resource
    of the group is missing ([FileNotFoundError] on its path) and when the
    resource is there but none of the entries under [data_assets], possibly
    none at all, is named [l] (the "Asset ... is not found" exception). *)
Theorem select_asset_failures
    (settings : Config) (fs : filesystem) (g l : string) :
  Str.count "." g = 0 ->
  Str.count "." l = 0 ->
  (fs_open fs (asset_path settings g) = None ->
   select_asset settings fs (g +:+ "." +:+ l)
   = Raise (FileNotFoundError (asset_path settings g)))
  /\ (forall doc entries,
        fs_open fs (asset_path settings g) = Some doc ->
        Py.getitem doc "data_assets" = Ok (YList entries) ->
        Forall (entry_not_named l) entries ->
        select_asset settings fs (g +:+ "." +:+ l)
        = Raise (AssetNotFound (g +:+ "." +:+ l))).
Proof.
  intros Hg Hl. rewrite (select_asset_split settings fs g l Hg Hl).
  unfold open_load. split.
  - intros ->. reflexivity.
  - intros doc entries -> Hd Hall. rewrite bind_Ok, Hd, bind_Ok.
    simpl Py.iter. rewrite bind_Ok. now apply find_asset_none.
Qed.

Lemma select_asset_failures_witness :
  select_asset Sample.settings Sample.fs "way5.doc"
  = Raise (FileNotFoundError "/proj/resources/data_assets/way5.yml")
  /\ select_asset Sample.settings Sample.fs "way4.card"
     = Raise (AssetNotFound "way4.card").
Proof.
  split.
  - apply (proj1 (select_asset_failures Sample.settings Sample.fs
                    "way5" "doc" eq_refl eq_refl)).
    reflexivity.
  - apply (proj2 (select_asset_failures Sample.settings Sample.fs
                    "way4" "card" eq_refl eq_refl)
             Sample.way4_yml
             [YMap [("name", YStr "doc"); ("query", YStr "select 1")];
              YMap [("name", YStr "acc"); ("query", YStr "select 2")]]).
    + reflexivity.
    + reflexivity.
    + repeat constructor; eexists; split; reflexivity.
Defined.

(** X4. Whatever [select_asset] returns comes from the resource: the
    name of the result is the name asked for, that name has exactly one
    dot, and the query is the [query] of an entry named by the leaf in the
    [data_assets] of the resource of the group. *)
Theorem select_asset_result_from_resource
    (settings : Config) (fs : filesystem) (fname : string) (a : DataAsset.t) :
  select_asset settings fs fname = Ok a ->
  DataAsset.name a = fname
  /\ Str.count "." fname = 1
  /\ exists g l doc assets entries entry,
       fname = g +:+ "." +:+ l
       /\ fs_open fs (asset_path settings g) = Some doc
       /\ Py.getitem doc "data_assets" = Ok assets
       /\ Py.iter assets = Ok entries
       /\ In entry entries
       /\ asset_entry l (DataAsset.query a) entry.
Proof.
  unfold select_asset. intros H.
  destruct (Str.split "." fname) as [|g [|l [|x r]]] eqn:Hs;
    try discriminate.
  simpl in H. unfold open_load in H.
  destruct (fs_open fs (asset_path settings g)) as [doc|] eqn:Hopen;
    [|discriminate].
  rewrite bind_Ok in H.
  destruct (Py.getitem doc "data_assets") as [assets|] eqn:Hd; [|discriminate].
  rewrite bind_Ok in H.
  destruct (Py.iter assets) as [entries|] eqn:Hi; [|discriminate].
  rewrite bind_Ok in H.
  destruct (find_asset_inv _ _ _ _ H) as (Hn & entry & Hin & He).
  destruct (split_two_inv "." fname g l Hs) as (Hf & _ & _).
  split; [exact Hn|]. split.
  - pose proof (split_length "." fname) as Hlen. rewrite Hs in Hlen.
    simpl in Hlen. lia.
  - exists g, l, doc, assets, entries, entry. auto 10.
Qed.

Lemma select_asset_result_from_resource_witness :
  DataAsset.name (DataAsset.mk "way4.doc" "select 1") = "way4.doc"
  /\ Str.count "." "way4.doc" = 1.
Proof.
  destruct (select_asset_result_from_resource Sample.settings Sample.fs
              "way4.doc" (DataAsset.mk "way4.doc" "select 1"))
    as (Hn & Hc & _).
  - vm_compute. reflexivity.
  - split; [exact Hn|exact Hc].
Defined.

(** X5. The entries of [data_assets] are searched in order with
    [entry.get("name")]: an entry that is not a mapping, met before an
    entry with the name, makes [select_asset] raise [AttributeError], even
    when an entry with the name follows. *)
Theorem select_asset_stops_at_malformed_entry
    (settings : Config) (fs : filesystem) (g l : string)
    (doc : yaml) (pre post : list yaml) (x : yaml) :
  Str.count "." g = 0 ->
  Str.count "." l = 0 ->
  fs_open fs (asset_path settings g) = Some doc ->
  Py.getitem doc "data_assets" = Ok (YList (pre ++ x :: post)) ->
  Forall (entry_not_named l) pre ->
  (forall m, x <> YMap m) ->
  select_asset settings fs (g +:+ "." +:+ l) = Raise AttributeError.
Proof.
  intros Hg Hl Hopen Hd Hpre Hx.
  rewrite (select_asset_split settings fs g l Hg Hl).
  unfold open_load. rewrite Hopen, bind_Ok, Hd, bind_Ok.
  simpl Py.iter. rewrite bind_Ok.
  apply find_asset_not_a_mapping; [exact Hpre|].
  destruct x; try reflexivity. now destruct (Hx m).
Qed.

Lemma select_asset_stops_at_malformed_entry_witness :
  let fs := mkFs (fun _ => Some (YMap [("data_assets",
                    YList [YStr "doc";
                           YMap [("name", YStr "doc");
                                 ("query", YStr "select 1")]])]))
                 (fun _ => []) in
  select_asset Sample.settings fs "way4.doc" = Raise AttributeError.
Proof.
  intros fs.
  apply (select_asset_stops_at_malformed_entry Sample.settings fs
           "way4" "doc" _ [] [YMap [("name", YStr "doc");
                                    ("query", YStr "select 1")]]
           (YStr "doc") eq_refl eq_refl eq_refl eq_refl).
  - constructor.
  - discriminate.
Defined.

(** ** Failures of the suite resolver *)

(** X6. [select_suite] fails with [FileNotFoundError] when the resource
    of the suite is missing, with [TypeError] when the resource is a
    mapping without an [expectations] key (the loop iterates over [None]),
    and with [KeyError] on [name] when the expectations are in order but
    the resource has no top-level [name]. *)
Theorem select_suite_failures
    (settings : Config) (fs : filesystem) (suite_name : string) :
  (fs_open fs (suite_path settings (suite_name +:+ ".yml")) = None ->
   select_suite settings fs suite_name
   = Raise (FileNotFoundError (suite_path settings (suite_name +:+ ".yml"))))
  /\ (forall m,
        fs_open fs (suite_path settings (suite_name +:+ ".yml"))
        = Some (YMap m) ->
        assoc "expectations" m = None ->
        select_suite settings fs suite_name = Raise TypeError)
  /\ (forall m entries exps,
        fs_open fs (suite_path settings (suite_name +:+ ".yml"))
        = Some (YMap m) ->
        assoc "expectations" m = Some (YList entries) ->
        Forall2 expectation_entry entries exps ->
        assoc "name" m = None ->
        select_suite settings fs suite_name = Raise (KeyError "name")).
Proof.
  unfold select_suite, select_suite_file, open_load. split; [|split].
  - intros ->. reflexivity.
  - intros m -> Hm. rewrite bind_Ok. simpl. now rewrite Hm.
  - intros m entries exps -> He Hall Hn. rewrite bind_Ok. simpl Py.get.
    rewrite He, bind_Ok. simpl Py.iter. rewrite bind_Ok.
    rewrite (mapM_Ok_Forall2 build_expectation entries exps).
    + rewrite bind_Ok. simpl. now rewrite Hn.
    + eapply Forall2_impl; [exact Hall|].
      intros entry x. apply build_expectation_entry.
Qed.

Lemma select_suite_failures_witness :
  select_suite Sample.settings Sample.fs "strict"
  = Raise (FileNotFoundError "/proj/resources/suites/strict.yml")
  /\ select_suite Sample.settings
       (mkFs (fun _ => Some (YMap [("name", YStr "s")])) (fun _ => [])) "s"
     = Raise TypeError
  /\ select_suite Sample.settings
       (mkFs (fun _ => Some (YMap [("expectations", YList [])])) (fun _ => []))
       "s"
     = Raise (KeyError "name").
Proof.
  split; [|split].
  - apply (proj1 (select_suite_failures Sample.settings Sample.fs "strict")).
    reflexivity.
  - apply (proj1 (proj2 (select_suite_failures Sample.settings
             (mkFs (fun _ => Some (YMap [("name", YStr "s")])) (fun _ => []))
             "s")) [("name", YStr "s")]); reflexivity.
  - apply (proj2 (proj2 (select_suite_failures Sample.settings
             (mkFs (fun _ => Some (YMap [("expectations", YList [])]))
                   (fun _ => [])) "s"))
             [("expectations", YList [])] [] []);
      try reflexivity. constructor.
Defined.

(** ** Assembling a job *)

Lemma build_run_entry settings fs entry r :
  run_entry settings fs entry r -> build_run settings fs entry = Ok r.
Proof.
  intros (names & sn & Hd & Hassets & Hs & Hsuite). unfold build_run.
  rewrite Hd, bind_Ok. simpl Py.iter. rewrite bind_Ok.
  rewrite (mapM_Ok_Forall2 _ (map YStr names) (Run.data_assets r)).
  - rewrite bind_Ok, Hs, bind_Ok. simpl Py.add_str. rewrite bind_Ok.
    unfold select_suite in Hsuite. rewrite Hsuite, bind_Ok. now destruct r.
  - clear -Hassets. induction Hassets; constructor; auto.
Qed.

(** X7. [handle_job_data] composes the two resolvers: from a job document
    with a string [name], an optional list of string [tags], and a list of
    [runs] whose asset names and suite names all resolve, it assembles the
    job of that name and those tags whose runs are the assembled runs, in
    document order. *)
Theorem handle_job_data_assembles
    (settings : Config) (fs : filesystem) (doc : yaml) (n : string)
    (entries : list yaml) (rs : list Run.t) (tg : yaml)
    (t : option (list string)) :
  Py.get doc "name" = Ok (YStr n) ->
  Py.get doc "runs" = Ok (YList entries) ->
  Forall2 (run_entry settings fs) entries rs ->
  Py.get doc "tags" = Ok tg ->
  Py.optional_str_list tg = Ok t ->
  handle_job_data settings fs doc = Ok (Job.mk n rs t).
Proof.
  intros Hn Hr Hruns Htg Ht. unfold handle_job_data.
  rewrite Hr, bind_Ok. simpl Py.iter. rewrite bind_Ok.
  rewrite (mapM_Ok_Forall2 (build_run settings fs) entries rs).
  - rewrite bind_Ok, Hn, bind_Ok, Htg, bind_Ok. simpl Py.strict_str.
    rewrite bind_Ok, Ht. reflexivity.
  - eapply Forall2_impl; [exact Hruns|]. apply build_run_entry.
Qed.

Lemma handle_job_data_assembles_witness :
  exists suite,
    select_suite Sample.settings Sample.fs "basic" = Ok suite
    /\ handle_job_data Sample.settings Sample.fs Sample.weekly_yml
       = Ok (Job.mk "weekly"
               [Run.mk [DataAsset.mk "way4.acc" "select 2"] suite]
               (Some ["finance"])).
Proof.
  destruct (select_suite Sample.settings Sample.fs "basic") as [suite|] eqn:E;
    [|vm_compute in E; discriminate].
  exists suite. split; [reflexivity|].
  apply (handle_job_data_assembles Sample.settings Sample.fs Sample.weekly_yml
           "weekly"
           [YMap [("data_assets", YList [YStr "way4.acc"]);
                  ("suite", YStr "basic")]]
           [Run.mk [DataAsset.mk "way4.acc" "select 2"] suite]
           (YList [YStr "finance"]) (Some ["finance"]));
    try reflexivity.
  constructor; [|constructor].
  exists ["way4.acc"], "basic". repeat split.
  - constructor; [|constructor]. vm_compute. reflexivity.
  - exact E.
Defined.

Lemma build_run_assets_inv settings fs entry r :
  build_run settings fs entry = Ok r ->
  Forall (fun a => Str.count "." (DataAsset.name a) = 1) (Run.data_assets r).
Proof.
  unfold build_run. intros H.
  destruct (Py.getitem entry "data_assets") as [names|]; [|discriminate].
  rewrite bind_Ok in H.
  destruct (Py.iter names) as [names'|]; [|discriminate].
  rewrite bind_Ok in H.
  match type of H with
  | context [mapM ?f names'] =>
      destruct (mapM f names') as [assets|] eqn:Hm; [|discriminate]
  end.
  rewrite bind_Ok in H.
  destruct (Py.getitem entry "suite") as [sn|]; [|discriminate].
  rewrite bind_Ok in H.
  destruct (Py.add_str sn ".yml") as [file_name|]; [|discriminate].
  rewrite bind_Ok in H.
  destruct (select_suite_file settings fs file_name) as [s|]; [|discriminate].
  rewrite bind_Ok in H. injection H as <-. simpl.
  apply mapM_Ok_inv in Hm. clear -Hm.
  induction Hm as [|x a l k Hx _ IH]; constructor; [|exact IH].
  destruct (Py.as_str_receiver x) as [fname|]; [|discriminate].
  rewrite bind_Ok in Hx.
  destruct (select_asset_result_from_resource _ _ _ _ Hx) as (-> & Hc & _).
  exact Hc.
Qed.

(** X8. Every data asset of an assembled job carries a composite name
    with exactly one dot, and the job has as many runs as its document
    lists. *)
Theorem assembled_job_assets_are_composite
    (settings : Config) (fs : filesystem) (doc : yaml) (job : Job.t) :
  handle_job_data settings fs doc = Ok job ->
  Forall (fun a => Str.count "." (DataAsset.name a) = 1) (all_assets [job])
  /\ exists runs entries,
       Py.get doc "runs" = Ok runs /\ Py.iter runs = Ok entries
       /\ length (Job.runs job) = length entries.
Proof.
  unfold handle_job_data. intros H.
  destruct (Py.get doc "runs") as [rs|] eqn:Hr; [|discriminate].
  rewrite bind_Ok in H.
  destruct (Py.iter rs) as [entries|] eqn:Hi; [|discriminate].
  rewrite bind_Ok in H.
  destruct (mapM (build_run settings fs) entries) as [rns|] eqn:Hm;
    [|discriminate].
  rewrite bind_Ok in H.
  destruct (Py.get doc "name") as [nm|]; [|discriminate].
  rewrite bind_Ok in H.
  destruct (Py.get doc "tags") as [tg|]; [|discriminate].
  rewrite bind_Ok in H.
  destruct (Py.strict_str nm) as [nm'|]; [|discriminate].
  rewrite bind_Ok in H.
  destruct (Py.optional_str_list tg) as [tg'|]; [|discriminate].
  rewrite bind_Ok in H. injection H as <-. split.
  - unfold all_assets. simpl. rewrite app_nil_r.
    apply mapM_Ok_inv in Hm. clear -Hm.
    induction Hm as [|x r l k Hx _ IH]; simpl; [constructor|].
    apply Forall_app. split; [|exact IH].
    now apply (build_run_assets_inv settings fs x).
  - exists rs, entries. split; [reflexivity|]. split; [exact Hi|]. simpl.
    now apply (mapM_Ok_length (build_run settings fs)).
Qed.

Lemma assembled_job_assets_are_composite_witness :
  exists job,
    handle_job_data Sample.settings Sample.fs Sample.daily_recon_yml = Ok job
    /\ Forall (fun a => Str.count "." (DataAsset.name a) = 1)
              (all_assets [job]).
Proof.
  destruct (handle_job_data Sample.settings Sample.fs Sample.daily_recon_yml)
    as [job|] eqn:E; [|vm_compute in E; discriminate].
  exists job. split; [reflexivity|].
  exact (proj1 (assembled_job_assets_are_composite
                  Sample.settings Sample.fs Sample.daily_recon_yml job E)).
Defined.

(** ** What a selection by tags returns *)

Lemma all_tags_in_Ok_tagged job_tags tags b :
  tags <> [] -> all_tags_in job_tags tags = Ok b -> job_tags <> None.
Proof.
  intros Hne H ->. now rewrite (all_tags_in_None tags Hne) in H.
Qed.

(** A scan that ends well has assembled every file, and has met no
    untagged job unless no tag was requested. *)
Lemma scan_Ok_inv settings fs tags paths jobs res :
  scan_job_files settings fs tags paths jobs = Ok res ->
  exists all,
    mapM (load_job settings fs) paths = Ok all
    /\ (tags <> [] -> Forall tagged all).
Proof.
  revert jobs. induction paths as [|p paths IH]; intros jobs H.
  - exists []. split; [reflexivity|]. constructor.
  - rewrite scan_cons in H. rewrite mapM_cons.
    destruct (load_job settings fs p) as [job|]; [|discriminate].
    rewrite bind_Ok in H |- *.
    destruct (all_tags_in (Job.tags job) tags) as [keep|] eqn:Hk;
      [|discriminate].
    rewrite bind_Ok in H. destruct (IH _ H) as (all & -> & Hall).
    exists (job :: all). split; [reflexivity|].
    intros Hne. constructor; [|auto].
    exact (all_tags_in_Ok_tagged _ _ _ Hne Hk).
Qed.

Lemma covers_nil job : tagged job -> covers [] job = true.
Proof.
  unfold tagged, covers. destruct (Job.tags job); [reflexivity|congruence].
Qed.

Lemma covers_app tags more job :
  covers (tags ++ more) job = covers tags job && covers more job.
Proof.
  unfold covers, requested_in. destruct (Job.tags job); [|reflexivity].
  apply forallb_app.
Qed.

Lemma filter_sublist_of {A} (p : A -> bool) l : sublist (List.filter p l) l.
Proof.
  induction l as [|x l IH]; simpl; [constructor|].
  destruct (p x); now constructor.
Qed.

Lemma filter_sublist_impl {A} (p q : A -> bool) l :
  (forall x, p x = true -> q x = true) ->
  sublist (List.filter p l) (List.filter q l).
Proof.
  intros Hpq. induction l as [|x l IH]; simpl; [constructor|].
  destruct (p x) eqn:Hp.
  - rewrite (Hpq x Hp). now constructor.
  - destruct (q x); [now constructor|exact IH].
Qed.

(** X9. When [_select_jobs_by_tags] returns, the list is not empty, every
    [.yml] file of the tree has been loaded and assembled, and the list is
    made of assembled jobs in the order of the walk: all of them when no
    tag is requested; otherwise every job of the tree has tags and the
    list is exactly the jobs whose tags cover the requested ones. *)
Theorem select_jobs_by_tags_result
    (settings : Config) (fs : filesystem) (tags : list string)
    (jobs : list Job.t) :
  _select_jobs_by_tags settings fs tags = Ok jobs ->
  jobs <> []
  /\ exists all,
       mapM (load_job settings fs) (job_files settings fs) = Ok all
       /\ sublist jobs all
       /\ (tags = [] -> jobs = all)
       /\ (tags <> [] ->
           Forall tagged all /\ jobs = List.filter (covers tags) all).
Proof.
  unfold _select_jobs_by_tags. intros H.
  destruct (scan_job_files settings fs tags (job_files settings fs) [])
    as [res|] eqn:Hscan; [|discriminate].
  rewrite bind_Ok in H.
  destruct res as [|j res]; [discriminate|]. injection H as <-.
  split; [discriminate|].
  destruct (scan_Ok_inv _ _ _ _ _ _ Hscan) as (all & Hm & Hall).
  exists all. split; [exact Hm|].
  destruct tags as [|t tags].
  - rewrite (scan_no_tags settings fs _ all [] Hm) in Hscan.
    injection Hscan as <-. split; [reflexivity|]. split; [reflexivity|].
    intros Hne. now destruct Hne.
  - assert (Hne : t :: tags <> []) by discriminate.
    rewrite (scan_all_tagged settings fs _ _ all [] Hm (Hall Hne)) in Hscan.
    injection Hscan as Hj. simpl app in Hj. rewrite <- Hj.
    split; [apply filter_sublist_of|]. split; [discriminate|].
    intros _. split; [exact (Hall Hne)|reflexivity].
Qed.

Lemma select_jobs_by_tags_result_witness :
  exists jobs all,
    _select_jobs_by_tags Sample.settings Sample.fs ["nightly"] = Ok jobs
    /\ mapM (load_job Sample.settings Sample.fs)
            (job_files Sample.settings Sample.fs) = Ok all
    /\ jobs = List.filter (covers ["nightly"]) all
    /\ map Job.name jobs = ["daily_recon"]
    /\ map Job.name all = ["daily_recon"; "weekly"].
Proof.
  destruct (_select_jobs_by_tags Sample.settings Sample.fs ["nightly"])
    as [jobs|] eqn:E; [|vm_compute in E; discriminate].
  destruct (select_jobs_by_tags_result Sample.settings Sample.fs
              ["nightly"] jobs E) as (_ & all & Hm & _ & _ & Hf).
  destruct (Hf ltac:(discriminate)) as (_ & Hj).
  exists jobs, all. split; [reflexivity|]. split; [exact Hm|].
  split; [exact Hj|].
  vm_compute in E. injection E as <-.
  vm_compute in Hm. injection Hm as <-. split; reflexivity.
Defined.

(** X10. In a tree whose job files all assemble into jobs that have
    tags, [_select_jobs_by_tags] returns, in the order of the walk, the
    jobs whose tags include every requested tag, and raises the "No job
    found for tags" error when there is none. *)
Theorem select_jobs_by_tags_on_tagged_tree
    (settings : Config) (fs : filesystem) (tags : list string)
    (all : list Job.t) :
  mapM (load_job settings fs) (job_files settings fs) = Ok all ->
  Forall tagged all ->
  _select_jobs_by_tags settings fs tags
  = match List.filter (covers tags) all with
    | [] => Raise (NoJobForTags tags)
    | kept => Ok kept
    end.
Proof.
  intros Hm Ht. now apply select_jobs_by_tags_all_tagged.
Qed.

Lemma select_jobs_by_tags_on_tagged_tree_witness :
  _select_jobs_by_tags Sample.settings Sample.fs ["nightly"; "eu"]
  = Raise (NoJobForTags ["nightly"; "eu"])
  /\ is_ok (_select_jobs_by_tags Sample.settings Sample.fs ["nightly"]) = true.
Proof.
  destruct (mapM (load_job Sample.settings Sample.fs)
              (job_files Sample.settings Sample.fs)) as [all|] eqn:E;
    [|vm_compute in E; discriminate].
  assert (Ht : Forall tagged all).
  { vm_compute in E. injection E as <-.
    repeat constructor; discriminate. }
  split.
  - rewrite (select_jobs_by_tags_on_tagged_tree Sample.settings Sample.fs
               ["nightly"; "eu"] all E Ht).
    vm_compute in E. injection E as <-. reflexivity.
  - rewrite (select_jobs_by_tags_on_tagged_tree Sample.settings Sample.fs
               ["nightly"] all E Ht).
    vm_compute in E. injection E as <-. reflexivity.
Defined.

(** X11. Requesting more tags never selects more: when the selection by
    [tags ++ more] returns, the selection by [tags] alone returns as well,
    and the first list is a sublist of the second. *)
Theorem select_jobs_by_tags_monotone
    (settings : Config) (fs : filesystem) (tags more : list string)
    (jobs : list Job.t) :
  _select_jobs_by_tags settings fs (tags ++ more) = Ok jobs ->
  exists jobs',
    _select_jobs_by_tags settings fs tags = Ok jobs'
    /\ sublist jobs jobs'.
Proof.
  intros H.
  destruct (select_jobs_by_tags_result _ _ _ _ H)
    as (Hne & all & Hm & Hsub & Hnil & Hcons).
  destruct (tags ++ more) as [|t r] eqn:Htm.
  - apply app_eq_nil in Htm as [-> ->]. exists jobs. split; [|reflexivity].
    rewrite <- (Hnil eq_refl) in Hm. unfold _select_jobs_by_tags.
    rewrite (scan_no_tags settings fs _ jobs [] Hm), bind_Ok.
    simpl app. destruct jobs; [now destruct Hne|reflexivity].
  - destruct (Hcons ltac:(discriminate)) as (Hall & Hj).
    assert (Hsub' : sublist jobs (List.filter (covers tags) all)).
    { rewrite Hj, <- Htm. apply filter_sublist_impl.
      intros x. rewrite covers_app. now intros [? _]%andb_true_iff. }
    exists (List.filter (covers tags) all). split; [|exact Hsub'].
    rewrite (select_jobs_by_tags_all_tagged settings fs tags all Hm Hall).
    destruct (List.filter (covers tags) all) eqn:Hf; [|reflexivity].
    apply sublist_nil_r in Hsub'. now destruct Hne.
Qed.

Lemma select_jobs_by_tags_monotone_witness :
  exists jobs jobs',
    _select_jobs_by_tags Sample.settings Sample.fs (["finance"] ++ ["nightly"])
    = Ok jobs
    /\ _select_jobs_by_tags Sample.settings Sample.fs ["finance"] = Ok jobs'
    /\ sublist jobs jobs'.
Proof.
  destruct (_select_jobs_by_tags Sample.settings Sample.fs
              (["finance"] ++ ["nightly"])) as [jobs|] eqn:E;
    [|vm_compute in E; discriminate].
  destruct (select_jobs_by_tags_monotone Sample.settings Sample.fs
              ["finance"] ["nightly"] jobs E) as (jobs' & H & Hsub).
  exists jobs, jobs'. auto.
Defined.

(** ** Job files the walk meets *)

(** X12. An empty [.yml] file under [resources/jobs] (it loads to [None])
    makes every selection by tags raise, whatever the tags: the walk
    assembles it without the emptiness test of the selection by name, and
    [None] has no [get].  The error is [AttributeError] whenever the files
    visited before it pass. *)
Theorem empty_job_file_breaks_tag_selection
    (settings : Config) (fs : filesystem) (tags : list string)
    (pre post : list string) (file_path : string) :
  job_files settings fs = pre ++ file_path :: post ->
  fs_open fs file_path = Some YNull ->
  (exists e, _select_jobs_by_tags settings fs tags = Raise e)
  /\ (forall kept,
        scan_job_files settings fs tags pre [] = Ok kept ->
        _select_jobs_by_tags settings fs tags = Raise AttributeError).
Proof.
  intros Hfiles Hopen.
  assert (Hscan : scan_job_files settings fs tags (job_files settings fs) []
                  = (jobs' ← scan_job_files settings fs tags pre [];
                     Raise AttributeError)).
  { rewrite Hfiles, scan_app.
    destruct (scan_job_files settings fs tags pre []) as [kept|];
      [|reflexivity].
    rewrite !bind_Ok, scan_cons. unfold load_job, open_load.
    now rewrite Hopen. }
  unfold _select_jobs_by_tags. rewrite Hscan. split.
  - destruct (scan_job_files settings fs tags pre []) as [kept|e].
    + exists AttributeError. reflexivity.
    + exists e. reflexivity.
  - intros kept ->. reflexivity.
Qed.

Lemma empty_job_file_breaks_tag_selection_witness :
  let fs := Sample.tree [("weekly.yml", Sample.weekly_yml);
                         ("blank.yml", YNull)] in
  _select_jobs_by_tags Sample.settings fs [] = Raise AttributeError
  /\ _select_job_by_filename Sample.settings fs "finance.blank"
     = Raise (NoJobForFilename "finance.blank").
Proof.
  intros fs. split; [|vm_compute; reflexivity].
  apply (proj2 (empty_job_file_breaks_tag_selection Sample.settings fs []
                  ["/proj/resources/jobs/finance/weekly.yml"] []
                  "/proj/resources/jobs/finance/blank.yml"
                  ltac:(vm_compute; reflexivity)
                  ltac:(vm_compute; reflexivity))
          [Job.mk "weekly"
             [Run.mk [DataAsset.mk "way4.acc" "select 2"]
                (Suite.mk "basic_suite"
                   [Expectation.mk "expect_column_to_exist"
                      [("column", YStr "id")];
                    Expectation.mk "expect_column_values_to_not_be_null"
                      [("column", YStr "id")]])]
             (Some ["finance"])]).
  vm_compute. reflexivity.
Defined.

Lemma endswith_refl p : Str.endswith p p = true.
Proof.
  destruct p as [|c p].
  - reflexivity.
  - change (Str.endswith (String c p) (String c p))
      with (String.eqb (String c p) (String c p)
            || Str.endswith (String c p) p).
    now rewrite String.eqb_refl.
Qed.

Lemma endswith_app_r p s t :
  Str.endswith p t = true -> Str.endswith p (s +:+ t) = true.
Proof.
  intros H. induction s as [|c s IH]; [exact H|].
  change (Str.endswith p (String c s +:+ t))
    with (String.eqb (String c (s +:+ t)) p || Str.endswith p (s +:+ t)).
  rewrite IH. apply orb_true_r.
Qed.

Lemma join2_endswith p path b :
  Str.endswith p b = true -> Str.endswith p (Path.join2 path b) = true.
Proof.
  intros H. unfold Path.join2.
  destruct (Str.startswith "/" b); [exact H|].
  destruct (String.eqb path "" || Str.endswith "/" path).
  - now apply endswith_app_r.
  - apply endswith_app_r. now apply (endswith_app_r p "/" b).
Qed.

(** X13. The walk only loads files whose name ends with [.yml]: every
    path of [job_files] is [os.path.join(root, file)] for a triple
    [(root, dirs, files)] of the walk and a [file] of it that ends with
    [.yml], and the path itself ends with [.yml]. *)
Theorem job_files_are_yml
    (settings : Config) (fs : filesystem) (file_path : string) :
  In file_path (job_files settings fs) ->
  Str.endswith ".yml" file_path = true
  /\ exists root dirs files file,
       In (root, dirs, files) (fs_walk fs (jobs_root settings))
       /\ In file files
       /\ Str.endswith ".yml" file = true
       /\ file_path = Path.join root [file].
Proof.
  unfold job_files. intros H.
  apply in_flat_map in H as ([[root dirs] files] & Hw & H).
  apply in_map_iff in H as (file & <- & H).
  apply filter_In in H as (Hin & Hyml).
  split.
  - unfold Path.join. cbn [fold_left]. now apply join2_endswith.
  - exists root, dirs, files, file. auto.
Qed.

Lemma job_files_are_yml_witness :
  Str.endswith ".yml" "/proj/resources/jobs/finance/weekly.yml" = true
  /\ ~ In "/proj/resources/jobs/finance/README.txt"
         (job_files Sample.settings Sample.fs).
Proof.
  split.
  - apply (job_files_are_yml Sample.settings Sample.fs
             "/proj/resources/jobs/finance/weekly.yml").
    vm_compute. auto.
  - intros H.
    apply (job_files_are_yml Sample.settings Sample.fs) in H as (H & _).
    vm_compute in H. discriminate.
Defined.

(** ** The data source across runs of the assembler *)

Lemma datasource_eq (d d' : Datasource) :
  ds_name d = ds_name d' ->
  ds_connection_string d = ds_connection_string d' ->
  ds_assets d = ds_assets d' ->
  d = d'.
Proof. destruct d, d'; simpl; now intros -> -> ->. Qed.

Section FoundAssets.

Variable rt : Runtime.

(** A step whose asset is on the data source and whose suite the runtime
    accepts returns and leaves the data source as it is. *)
Lemma validate_asset_found run st a :
  is_Some (ds_assets (bs_data_source st) !! DataAsset.name a) ->
  is_ok (add_expectations rt [] (Suite.expectations (Run.suite run))) = true ->
  snd (validate_asset rt run st a) = Ok tt
  /\ bs_data_source (fst (validate_asset rt run st a)) = bs_data_source st.
Proof.
  intros [q Hq] Hs. unfold validate_asset, get_asset, build_suite.
  rewrite Hq. simpl.
  destruct (add_expectations rt [] (Suite.expectations (Run.suite run)));
    [|discriminate].
  split; reflexivity.
Qed.

Lemma validate_jobs_found st jobs :
  (forall a, In a (all_assets jobs) ->
             is_Some (ds_assets (bs_data_source st) !! DataAsset.name a)) ->
  Forall (fun job =>
    Forall (fun run =>
              Run.data_assets run <> [] ->
              is_ok (add_expectations rt []
                       (Suite.expectations (Run.suite run))) = true)
           (Job.runs job)) jobs ->
  snd (for_each (validate_job rt) jobs st) = Ok tt
  /\ bs_data_source (fst (for_each (validate_job rt) jobs st))
     = bs_data_source st.
Proof.
  intros Hfound Hsuites.
  apply (for_each_all_Ok (validate_job rt)
           (fun st' => bs_data_source st' = bs_data_source st));
    [|reflexivity].
  intros st1 job Hjob H1. unfold validate_job.
  rewrite <- H1.
  apply (for_each_all_Ok (validate_run rt)
           (fun st' => bs_data_source st' = bs_data_source st1));
    [|reflexivity].
  intros st2 run Hrun H2. unfold validate_run.
  rewrite <- H2.
  apply (for_each_all_Ok (validate_asset rt run)
           (fun st' => bs_data_source st' = bs_data_source st2));
    [|reflexivity].
  intros st3 a Ha H3. rewrite <- H3.
  apply validate_asset_found.
  - rewrite H3, H2, H1. apply Hfound. unfold all_assets.
    apply in_flat_map. exists job. split; [exact Hjob|].
    apply in_flat_map. exists run. split; [exact Hrun|exact Ha].
  - pose proof (proj1 (List.Forall_forall _ _) Hsuites job Hjob) as Hj.
    apply (proj1 (List.Forall_forall _ _) Hj run Hrun).
    intros E. now rewrite E in Ha.
Qed.

End FoundAssets.

(** X14. [build_validations] can be repeated: when it has returned, a
    second run on the context and the data source it has left, with the
    same jobs, returns too, with the same descriptors, and leaves the data
    source as it is, since every asset is found and none is created. *)
Theorem build_validations_repeatable
    (rt : Runtime) (context : Context) (data_source : Datasource)
    (jobs : selection) :
  snd (build_validations rt context data_source jobs) = Ok tt ->
  snd (build_validations rt
         (bs_context (fst (build_validations rt context data_source jobs)))
         (bs_data_source (fst (build_validations rt context data_source jobs)))
         jobs) = Ok tt
  /\ bs_validations
       (fst (build_validations rt
          (bs_context (fst (build_validations rt context data_source jobs)))
          (bs_data_source
             (fst (build_validations rt context data_source jobs)))
          jobs))
     = bs_validations (fst (build_validations rt context data_source jobs))
  /\ bs_data_source
       (fst (build_validations rt
          (bs_context (fst (build_validations rt context data_source jobs)))
          (bs_data_source
             (fst (build_validations rt context data_source jobs)))
          jobs))
     = bs_data_source (fst (build_validations rt context data_source jobs)).
Proof.
  unfold build_validations. intros Hok.
  set (l := normalize_jobs jobs) in *.
  set (st0 := mkBuildState context data_source []) in *.
  destruct (validate_jobs_Ok rt st0 l Hok) as (Hv & Ha & _ & Hsuites).
  destruct (validate_jobs_source rt st0 l) as (Hn & _).
  set (st1 := fst (for_each (validate_job rt) l st0)) in *.
  set (st0' := mkBuildState (bs_context st1) (bs_data_source st1) []).
  destruct (validate_jobs_found rt st0' l) as (Hok' & Hds).
  - intros a Hin. simpl. rewrite Ha. now apply register_missing_present.
  - exact Hsuites.
  - split; [exact Hok'|]. split; [|exact Hds].
    destruct (validate_jobs_Ok rt st0' l Hok') as (Hv' & _).
    rewrite Hv', Hv. simpl. now rewrite Hn.
Qed.

Lemma build_validations_repeatable_witness :
  let source := mkDatasource "staging" "postgresql://db/staging" ∅ in
  let job := Job.mk "daily_recon"
               [Run.mk [DataAsset.mk "way4.doc" "select 1";
                        DataAsset.mk "way4.acc" "select 2"]
                  (Suite.mk "basic_suite"
                     [Expectation.mk "expect_column_to_exist"
                        [("column", YStr "id")]])] None in
  let st := fst (build_validations Sample.rt_strict (mkContext ∅ ∅) source
                   (OneJob job)) in
  snd (build_validations Sample.rt_strict (bs_context st) (bs_data_source st)
         (OneJob job)) = Ok tt
  /\ length (bs_validations
               (fst (build_validations Sample.rt_strict (bs_context st)
                       (bs_data_source st) (OneJob job)))) = 2.
Proof.
  intros source job st.
  destruct (build_validations_repeatable Sample.rt_strict (mkContext ∅ ∅)
              source (OneJob job) eq_refl) as (Hok & Hv & _).
  subst st. split; [exact Hok|]. rewrite Hv. reflexivity.
Defined.

Section KeptAssets.

Variable rt : Runtime.
Variable n : string.

Lemma validate_jobs_keep st jobs q :
  ds_assets (bs_data_source st) !! n = Some q ->
  ds_assets (bs_data_source (fst (for_each (validate_job rt) jobs st))) !! n
  = Some q.
Proof.
  apply (for_each_preserves (validate_job rt)
           (fun st' => ds_assets (bs_data_source st') !! n = Some q)).
  intros st1 job _. unfold validate_job.
  apply (for_each_preserves (validate_run rt)
           (fun st' => ds_assets (bs_data_source st') !! n = Some q)).
  intros st2 run _. unfold validate_run.
  apply (for_each_preserves (validate_asset rt run)
           (fun st' => ds_assets (bs_data_source st') !! n = Some q)).
  intros st3 a _. apply validate_asset_keeps.
Qed.

Lemma validate_jobs_other st jobs :
  (forall a, In a (all_assets jobs) -> DataAsset.name a <> n) ->
  ds_assets (bs_data_source (fst (for_each (validate_job rt) jobs st))) !! n
  = ds_assets (bs_data_source st) !! n.
Proof.
  intros Hne.
  apply (for_each_preserves (validate_job rt)
           (fun st' => ds_assets (bs_data_source st') !! n
                       = ds_assets (bs_data_source st) !! n));
    [|reflexivity].
  intros st1 job Hjob <-. unfold validate_job.
  apply (for_each_preserves (validate_run rt)
           (fun st' => ds_assets (bs_data_source st') !! n
                       = ds_assets (bs_data_source st1) !! n));
    [|reflexivity].
  intros st2 run Hrun <-. unfold validate_run.
  apply (for_each_preserves (validate_asset rt run)
           (fun st' => ds_assets (bs_data_source st') !! n
                       = ds_assets (bs_data_source st2) !! n));
    [|reflexivity].
  intros st3 a Ha <-. apply validate_asset_other. apply Hne.
  unfold all_assets. apply in_flat_map. exists job. split; [exact Hjob|].
  apply in_flat_map. exists run. split; [exact Hrun|exact Ha].
Qed.

End KeptAssets.

(** X15. [build_validations] never refreshes an asset: a name that is on
    the data source keeps the query it has there, whatever query the jobs
    configure for it, and a name that no job mentions is left as it is.
    This holds of the state the function leaves whether it returns or
    raises. *)
Theorem build_validations_keeps_existing_assets
    (rt : Runtime) (context : Context) (data_source : Datasource)
    (jobs : selection) (n : string) :
  (forall q,
     ds_assets data_source !! n = Some q ->
     ds_assets (bs_data_source
                  (fst (build_validations rt context data_source jobs)))
       !! n = Some q)
  /\ ((forall a, In a (all_assets (normalize_jobs jobs)) ->
                 DataAsset.name a <> n) ->
      ds_assets (bs_data_source
                   (fst (build_validations rt context data_source jobs)))
        !! n = ds_assets data_source !! n).
Proof.
  unfold build_validations. split.
  - intros q Hq. now apply validate_jobs_keep.
  - intros Hne. now apply (validate_jobs_other rt n).
Qed.

Lemma build_validations_keeps_existing_assets_witness :
  let source := mkDatasource "staging" "postgresql://db/staging"
                  {["way4.doc" := "select 0"]} in
  let job := Job.mk "daily_recon"
               [Run.mk [DataAsset.mk "way4.doc" "select 1"]
                  (Suite.mk "basic_suite" [])] None in
  ds_assets (bs_data_source
               (fst (build_validations Sample.rt (mkContext ∅ ∅) source
                       (OneJob job))))
    !! "way4.doc" = Some "select 0".
Proof.
  intros source job.
  apply (proj1 (build_validations_keeps_existing_assets Sample.rt
                  (mkContext ∅ ∅) source (OneJob job) "way4.doc")).
  reflexivity.
Defined.

(** ** The driver, step by step *)

Section DriverSteps.

Variable settings : Config.
Variable fs : filesystem.
Variable rt : Runtime.

Lemma webhook_of_spec args :
  (if supplied (arg_webhook args) then default "" (arg_webhook args)
   else microsoft_teams_webhook settings)
  = webhook_of settings args.
Proof.
  unfold webhook_of, supplied. destruct (arg_webhook args) as [w|];
    [|reflexivity].
  simpl. now destruct (String.eqb w "").
Qed.

(** The branch of the driver for the selector [sel]. *)
Lemma select_and_run_unfold context data_source sel name webhook :
  select_and_run settings fs rt context data_source sel name webhook
  = match select_job settings fs sel with
    | Raise e => ([SelectJob sel], Raise e)
    | Ok jobs =>
        match snd (build_validations rt context data_source jobs) with
        | Raise e => ([SelectJob sel; BuildValidations], Raise e)
        | Ok _ =>
            ([SelectJob sel; BuildValidations; RunCheckpoint name],
             checkpoint_run rt
               (mkContext
                  (ctx_suites (bs_context
                     (fst (build_validations rt context data_source jobs))))
                  (<[name := checkpoint_of name
                               (bs_validations
                                  (fst (build_validations rt context
                                          data_source jobs)))
                               webhook]>
                     (ctx_checkpoints (bs_context
                        (fst (build_validations rt context
                                data_source jobs))))))
               (bs_data_source
                  (fst (build_validations rt context data_source jobs)))
               (checkpoint_of name
                  (bs_validations
                     (fst (build_validations rt context data_source jobs)))
                  webhook))
        end
    end.
Proof.
  unfold select_and_run.
  destruct (select_job settings fs sel) as [jobs|e]; [|reflexivity].
  cbn [tick lift mbind traced_bind app].
  destruct (snd (build_validations rt context data_source jobs)) as [[]|e];
    reflexivity.
Qed.

(** The driver, case by case. *)
Lemma main_unfold args :
  main settings fs rt args
  = match load_context rt (project_path settings) (env settings) with
    | Raise e => ([LoadContext], Raise (Wrapped e))
    | Ok context =>
        match load_data_source settings fs rt context "staging_postgres" with
        | Raise e => ([LoadContext; LoadDataSource], Raise (Wrapped e))
        | Ok data_source =>
            match chosen args with
            | None => ([LoadContext; LoadDataSource],
                       Raise (Wrapped NoSelector))
            | Some (sel, name) =>
                match select_and_run settings fs rt context data_source
                        sel name (webhook_of settings args) with
                | (s, r) => (LoadContext :: LoadDataSource :: s, verdict r)
                end
            end
        end
    end.
Proof.
  unfold main, try_block. rewrite webhook_of_spec.
  destruct (load_context rt (project_path settings) (env settings))
    as [context|e]; [|reflexivity].
  cbn [tick lift mbind traced_bind app].
  destruct (load_data_source settings fs rt context "staging_postgres")
    as [data_source|e]; [|reflexivity].
  unfold chosen, supplied, split_tags.
  destruct (arg_job_name args) as [n|]; destruct (arg_job_tags args) as [t|];
    cbn [default from_option id];
    repeat match goal with
      | |- context [String.eqb ?x ""] => destruct (String.eqb x ""); cbn [negb]
      end;
    try reflexivity;
    match goal with
    | |- context [select_and_run ?a ?b ?c ?d ?e ?f ?g ?h] =>
        destruct (select_and_run a b c d e f g h) as [s [[|]|err]]
    end; cbn; rewrite ?app_nil_r; reflexivity.
Qed.

End DriverSteps.

(** X16. Once the context and the data source are loaded and the
    selector of the command line resolves to jobs, the driver builds the
    validations.  When [build_validations] raises, the driver stops after
    that fourth call and re-raises the error wrapped, without a checkpoint.
    When it returns, the driver makes its fifth call: it hands to the
    runtime one checkpoint, named by the selector argument, that carries
    the descriptors built and, last of its four actions, a notification on
    failure only, to the webhook of the command line or else of the
    settings, and it exits with status zero exactly when that run reports
    success. *)
Theorem main_runs_pipeline
    (settings : Config) (fs : filesystem) (rt : Runtime) (args : Args)
    (context : Context) (data_source : Datasource)
    (sel : selector) (name : string) (jobs : selection) :
  load_context rt (project_path settings) (env settings) = Ok context ->
  load_data_source settings fs rt context "staging_postgres" = Ok data_source ->
  chosen args = Some (sel, name) ->
  select_job settings fs sel = Ok jobs ->
  main settings fs rt args
  = match snd (build_validations rt context data_source jobs) with
    | Raise e =>
        ([LoadContext; LoadDataSource; SelectJob sel; BuildValidations],
         Raise (Wrapped e))
    | Ok _ =>
        ([LoadContext; LoadDataSource; SelectJob sel; BuildValidations;
          RunCheckpoint name],
         verdict
           (checkpoint_run rt
              (mkContext
                 (ctx_suites (bs_context
                    (fst (build_validations rt context data_source jobs))))
                 (<[name := checkpoint_of name
                              (bs_validations
                                 (fst (build_validations rt context
                                         data_source jobs)))
                              (webhook_of settings args)]>
                    (ctx_checkpoints (bs_context
                       (fst (build_validations rt context
                               data_source jobs))))))
              (bs_data_source
                 (fst (build_validations rt context data_source jobs)))
              (checkpoint_of name
                 (bs_validations
                    (fst (build_validations rt context data_source jobs)))
                 (webhook_of settings args))))
    end.
Proof.
  intros Hc Hd Hsel Hjobs.
  rewrite main_unfold, Hc, Hd, Hsel, select_and_run_unfold, Hjobs.
  destruct (snd (build_validations rt context data_source jobs)) as [[]|e];
    reflexivity.
Qed.

Lemma main_runs_pipeline_witness :
  main Sample.settings Sample.fs Sample.rt
    (Sample.args None (Some "finance-nightly"))
  = ([LoadContext; LoadDataSource;
      SelectJob (ByTags ["finance"; "nightly"]); BuildValidations;
      RunCheckpoint "finance-nightly"], Ok tt)
  /\ main Sample.settings Sample.fs Sample.rt_strict
       (Sample.args None (Some "finance-nightly"))
     = ([LoadContext; LoadDataSource;
         SelectJob (ByTags ["finance"; "nightly"]); BuildValidations],
        Raise (Wrapped (RuntimeFailure
                          "InvalidExpectationConfigurationError"))).
Proof.
  destruct (select_job Sample.settings Sample.fs
              (ByTags ["finance"; "nightly"])) as [jobs|] eqn:E;
    [|vm_compute in E; discriminate].
  split.
  - rewrite (main_runs_pipeline Sample.settings Sample.fs Sample.rt
               (Sample.args None (Some "finance-nightly"))
               (mkContext ∅ ∅)
               (mkDatasource "staging" "postgresql://db/staging" ∅)
               (ByTags ["finance"; "nightly"]) "finance-nightly" jobs
               eq_refl eq_refl eq_refl E).
    vm_compute in E. injection E as <-. reflexivity.
  - rewrite (main_runs_pipeline Sample.settings Sample.fs Sample.rt_strict
               (Sample.args None (Some "finance-nightly"))
               (mkContext ∅ ∅)
               (mkDatasource "staging" "postgresql://db/staging" ∅)
               (ByTags ["finance"; "nightly"]) "finance-nightly" jobs
               eq_refl eq_refl eq_refl E).
    vm_compute in E. injection E as <-. reflexivity.
Defined.

(** X17. When the selector of the command line does not resolve, the
    driver stops there: it re-raises the error of the resolver wrapped, and
    it has built no validation and run no checkpoint. *)
Theorem main_stops_at_failed_selection
    (settings : Config) (fs : filesystem) (rt : Runtime) (args : Args)
    (context : Context) (data_source : Datasource)
    (sel : selector) (name : string) (e : exn) :
  load_context rt (project_path settings) (env settings) = Ok context ->
  load_data_source settings fs rt context "staging_postgres" = Ok data_source ->
  chosen args = Some (sel, name) ->
  select_job settings fs sel = Raise e ->
  main settings fs rt args
  = ([LoadContext; LoadDataSource; SelectJob sel], Raise (Wrapped e)).
Proof.
  intros Hc Hd Hsel Hjobs.
  rewrite main_unfold, Hc, Hd, Hsel, select_and_run_unfold, Hjobs.
  reflexivity.
Qed.

Lemma main_stops_at_failed_selection_witness :
  main Sample.settings Sample.fs Sample.rt
    (Sample.args (Some "finance.monthly") None)
  = ([LoadContext; LoadDataSource; SelectJob (ByName "finance.monthly")],
     Raise (Wrapped (FileNotFoundError
                       "/proj/resources/jobs/finance/monthly.yml"))).
Proof.
  apply (main_stops_at_failed_selection Sample.settings Sample.fs Sample.rt
           (Sample.args (Some "finance.monthly") None)
           (mkContext ∅ ∅)
           (mkDatasource "staging" "postgresql://db/staging" ∅)
           (ByName "finance.monthly") "finance.monthly");
    reflexivity.
Defined.

(** X18. The driver exits with status zero only after the whole
    pipeline: a selector was supplied and resolved, and the calls made are
    the loading of the context and of the data source, the selection, the
    building of the validations and the run of the checkpoint, in that
    order. *)
Theorem main_success_means_full_pipeline
    (settings : Config) (fs : filesystem) (rt : Runtime) (args : Args) :
  snd (main settings fs rt args) = Ok tt ->
  exists sel name,
    chosen args = Some (sel, name)
    /\ is_ok (select_job settings fs sel) = true
    /\ fst (main settings fs rt args)
       = [LoadContext; LoadDataSource; SelectJob sel; BuildValidations;
          RunCheckpoint name].
Proof.
  rewrite main_unfold.
  destruct (load_context rt (project_path settings) (env settings))
    as [context|]; [|discriminate].
  destruct (load_data_source settings fs rt context "staging_postgres")
    as [data_source|]; [|discriminate].
  destruct (chosen args) as [[sel name]|]; [|discriminate].
  rewrite select_and_run_unfold.
  destruct (select_job settings fs sel) as [jobs|] eqn:Hj; [|discriminate].
  destruct (snd (build_validations rt context data_source jobs)) as [[]|];
    [|discriminate].
  intros _. exists sel, name. rewrite Hj. repeat split.
Qed.

Lemma main_success_means_full_pipeline_witness :
  exists sel name,
    chosen (Sample.args (Some "finance.weekly") None) = Some (sel, name)
    /\ is_ok (select_job Sample.settings Sample.fs sel) = true
    /\ fst (main Sample.settings Sample.fs Sample.rt
              (Sample.args (Some "finance.weekly") None))
       = [LoadContext; LoadDataSource; SelectJob sel; BuildValidations;
          RunCheckpoint name].
Proof.
  apply (main_success_means_full_pipeline Sample.settings Sample.fs Sample.rt
           (Sample.args (Some "finance.weekly") None)).
  vm_compute. reflexivity.
Defined.

(** ** Splitting arguments *)

Lemma split_pieces_no_sep sep s :
  Forall (fun w => Str.count sep w = 0) (Str.split sep s).
Proof.
  induction s as [|c s IH]; simpl.
  - repeat constructor.
  - destruct (Ascii.eqb c sep) eqn:Ec.
    + constructor; [reflexivity|exact IH].
    + destruct (Str.split sep s) as [|w ws].
      * constructor; [|constructor]. simpl. now rewrite Ec.
      * inversion IH as [|? ? Hw Hws]; subst.
        constructor; [|exact Hws]. simpl. now rewrite Ec.
Qed.

Lemma concat_cons_cons sep x y l :
  String.concat sep (x :: y :: l) = x +:+ sep +:+ String.concat sep (y :: l).
Proof. reflexivity. Qed.

(** X19. [str.split] on a one-character separator loses nothing: a
    string with [n] separators gives [n + 1] pieces, none of which holds
    the separator, and joining the pieces with the separator gives the
    string back.  This is how a dotted name and the [--job_tags] argument
    are cut. *)
Theorem split_round_trip (sep : ascii) (s : string) :
  String.concat (String sep "") (Str.split sep s) = s
  /\ length (Str.split sep s) = S (Str.count sep s)
  /\ Forall (fun w => Str.count sep w = 0) (Str.split sep s).
Proof.
  split; [|split; [apply split_length|apply split_pieces_no_sep]].
  induction s as [|c s IH]; [reflexivity|].
  simpl Str.split. destruct (Ascii.eqb c sep) eqn:Ec.
  - apply Ascii.eqb_eq in Ec. subst c.
    destruct (Str.split sep s) as [|w ws] eqn:Es.
    + now destruct (split_nonempty sep s).
    + rewrite concat_cons_cons, IH. reflexivity.
  - destruct (Str.split sep s) as [|w [|w' ws]] eqn:Es.
    + now destruct (split_nonempty sep s).
    + simpl in IH |- *. now rewrite IH.
    + rewrite concat_cons_cons in IH |- *. rewrite append_cons. now rewrite IH.
Qed.

(** X20. A selection by tags made by the driver comes from a non-empty
    [--job_tags] argument, with no job name supplied, and its tags are the
    pieces of that argument between hyphens: the list is never empty and no
    tag in it holds a hyphen. *)
Theorem main_tags_come_from_job_tags
    (settings : Config) (fs : filesystem) (rt : Runtime) (args : Args)
    (tags : list string) :
  In (SelectJob (ByTags tags)) (fst (main settings fs rt args)) ->
  supplied (arg_job_name args) = false
  /\ tags <> []
  /\ Forall (fun tag => Str.count "-" tag = 0) tags
  /\ exists s,
       arg_job_tags args = Some s /\ s <> "" /\ tags = Str.split "-" s.
Proof.
  rewrite main_unfold.
  destruct (load_context rt (project_path settings) (env settings))
    as [context|]; [|simpl; intuition discriminate].
  destruct (load_data_source settings fs rt context "staging_postgres")
    as [data_source|]; [|simpl; intuition discriminate].
  destruct (chosen args) as [[sel name]|] eqn:Hch;
    [|simpl; intuition discriminate].
  rewrite select_and_run_unfold.
  assert (Hsel : In (SelectJob (ByTags tags))
                   [LoadContext; LoadDataSource; SelectJob sel;
                    BuildValidations; RunCheckpoint name] ->
                 sel = ByTags tags).
  { simpl. intros [H|[H|[H|[H|[H|[]]]]]]; try discriminate.
    now injection H. }
  intros Hin. assert (Hs : sel = ByTags tags).
  { destruct (select_job settings fs sel) as [jobs|];
      [destruct (snd (build_validations rt context data_source jobs))
         as [[]|]|];
      simpl in Hin; apply Hsel; simpl; intuition. }
  subst sel. clear Hin Hsel. unfold chosen, supplied in *.
  assert (Hsplit : forall s,
            s <> "" ->
            Str.split "-" s <> []
            /\ Forall (fun tag => Str.count "-" tag = 0) (Str.split "-" s)
            /\ exists s', Some s = Some s' /\ s' <> ""
                          /\ Str.split "-" s = Str.split "-" s').
  { intros s Hne. split; [apply split_nonempty|].
    split; [apply split_pieces_no_sep|]. exists s. auto. }
  destruct (arg_job_name args) as [n|]; destruct (arg_job_tags args) as [t|];
    repeat match type of Hch with
      | context [String.eqb ?x ""] =>
          destruct (String.eqb x "") eqn:?; cbn [negb] in Hch
      end;
    try discriminate; injection Hch as <- <-;
    (split; [reflexivity|]); apply Hsplit; now apply String.eqb_neq.
Qed.

Lemma main_tags_come_from_job_tags_witness :
  ["finance"; "nightly"] <> []
  /\ Forall (fun tag => Str.count "-" tag = 0) ["finance"; "nightly"].
Proof.
  destruct (main_tags_come_from_job_tags Sample.settings Sample.fs Sample.rt
              (Sample.args None (Some "finance-nightly"))
              ["finance"; "nightly"]) as (_ & Hne & Hall & _).
  - vm_compute. auto.
  - split; assumption.
Defined.

(** ** The data source file and the suites of the context *)

(** X21. The driver loads the data source from the fixed resource
    [resources/data_sources/staging_postgres.yml] before it looks at the
    selectors: when the context loads and that file is missing, every run
    ends with the wrapped [FileNotFoundError] after the two loading calls,
    whatever the command line. *)
Theorem main_needs_data_source_file
    (settings : Config) (fs : filesystem) (rt : Runtime) (args : Args)
    (context : Context) :
  load_context rt (project_path settings) (env settings) = Ok context ->
  fs_open fs (Path.join (project_path settings)
                ["resources/data_sources"; "staging_postgres.yml"]) = None ->
  main settings fs rt args
  = ([LoadContext; LoadDataSource],
     Raise (Wrapped (FileNotFoundError
                       (Path.join (project_path settings)
                          ["resources/data_sources";
                           "staging_postgres.yml"])))).
Proof.
  intros Hc Hopen. rewrite main_unfold, Hc.
  unfold load_data_source, open_load.
  change ("staging_postgres" +:+ ".yml") with "staging_postgres.yml".
  now rewrite Hopen.
Qed.

Lemma main_needs_data_source_file_witness :
  main Sample.settings (mkFs (fun _ => None) (fun _ => [])) Sample.rt
    (Sample.args (Some "finance.weekly") None)
  = ([LoadContext; LoadDataSource],
     Raise (Wrapped (FileNotFoundError
                       "/proj/resources/data_sources/staging_postgres.yml"))).
Proof.
  apply (main_needs_data_source_file Sample.settings
           (mkFs (fun _ => None) (fun _ => [])) Sample.rt
           (Sample.args (Some "finance.weekly") None) (mkContext ∅ ∅));
    reflexivity.
Defined.

Lemma build_suite_other rt context suite_config k :
  Suite.name suite_config <> k ->
  ctx_suites (fst (build_suite rt context suite_config)) !! k
  = ctx_suites context !! k.
Proof.
  intros Hne. unfold build_suite, store_suite.
  destruct (add_expectations rt [] (Suite.expectations suite_config));
    simpl; now rewrite !lookup_insert_ne.
Qed.

Lemma build_suite_checkpoints rt context suite_config :
  ctx_checkpoints (fst (build_suite rt context suite_config))
  = ctx_checkpoints context.
Proof.
  unfold build_suite, store_suite.
  now destruct (add_expectations rt [] (Suite.expectations suite_config)).
Qed.

Lemma validate_asset_context rt run st a :
  bs_context (fst (validate_asset rt run st a)) = bs_context st
  \/ bs_context (fst (validate_asset rt run st a))
     = fst (build_suite rt (bs_context st) (Run.suite run)).
Proof.
  unfold validate_asset.
  destruct (match get_asset (bs_data_source st) (DataAsset.name a) with
            | Some data_asset => Ok (bs_data_source st, data_asset)
            | None => add_query_asset rt (bs_data_source st)
                        (DataAsset.name a) (DataAsset.query a)
            end) as [[ds da]|e]; [|now left].
  right.
  now destruct (build_suite rt (bs_context st) (Run.suite run)) as [c [?|?]].
Qed.

Section SuitesOfTheContext.

Variable rt : Runtime.

Lemma in_asset_runs jobs job run a :
  In job jobs -> In run (Job.runs job) -> In a (Run.data_assets run) ->
  In run (asset_runs jobs).
Proof.
  intros Hjob Hrun Ha. unfold asset_runs.
  apply in_flat_map. exists job. split; [exact Hjob|].
  apply in_flat_map. exists run. split; [exact Hrun|].
  apply in_map_iff. exists a. auto.
Qed.

Lemma asset_runs_inv jobs run :
  In run (asset_runs jobs) ->
  exists job, In job jobs /\ In run (Job.runs job) /\ Run.data_assets run <> [].
Proof.
  unfold asset_runs. intros H.
  apply in_flat_map in H as (job & Hjob & H).
  apply in_flat_map in H as (run' & Hrun & H).
  apply in_map_iff in H as (a & <- & Ha).
  exists job. repeat split; auto. intros E. now rewrite E in Ha.
Qed.

(** Every step keeps the checkpoints, and the suites under the names
    other than that of the suite of its run. *)
Lemma validate_jobs_other_suites st jobs k :
  (forall run, In run (asset_runs jobs) -> Suite.name (Run.suite run) <> k) ->
  ctx_suites (bs_context (fst (for_each (validate_job rt) jobs st))) !! k
  = ctx_suites (bs_context st) !! k.
Proof.
  intros Hne.
  apply (for_each_preserves (validate_job rt)
           (fun st' => ctx_suites (bs_context st') !! k
                       = ctx_suites (bs_context st) !! k));
    [|reflexivity].
  intros st1 job Hjob <-. unfold validate_job.
  apply (for_each_preserves (validate_run rt)
           (fun st' => ctx_suites (bs_context st') !! k
                       = ctx_suites (bs_context st1) !! k));
    [|reflexivity].
  intros st2 run Hrun <-. unfold validate_run.
  apply (for_each_preserves (validate_asset rt run)
           (fun st' => ctx_suites (bs_context st') !! k
                       = ctx_suites (bs_context st2) !! k));
    [|reflexivity].
  intros st3 a Ha <-.
  destruct (validate_asset_context rt run st3 a) as [->| ->]; [reflexivity|].
  apply build_suite_other. apply Hne.
  now apply (in_asset_runs jobs job run a).
Qed.

Lemma validate_jobs_checkpoints st jobs :
  ctx_checkpoints (bs_context (fst (for_each (validate_job rt) jobs st)))
  = ctx_checkpoints (bs_context st).
Proof.
  apply (for_each_preserves (validate_job rt)
           (fun st' => ctx_checkpoints (bs_context st')
                       = ctx_checkpoints (bs_context st)));
    [|reflexivity].
  intros st1 job _ <-. unfold validate_job.
  apply (for_each_preserves (validate_run rt)
           (fun st' => ctx_checkpoints (bs_context st')
                       = ctx_checkpoints (bs_context st1)));
    [|reflexivity].
  intros st2 run _ <-. unfold validate_run.
  apply (for_each_preserves (validate_asset rt run)
           (fun st' => ctx_checkpoints (bs_context st')
                       = ctx_checkpoints (bs_context st2)));
    [|reflexivity].
  intros st3 a _ <-.
  destruct (validate_asset_context rt run st3 a) as [->| ->]; [reflexivity|].
  apply build_suite_checkpoints.
Qed.

Lemma register_suite_other suites l k :
  Forall (fun run => Suite.name (Run.suite run) <> k) l ->
  fold_left (register_suite rt) l suites !! k = suites !! k.
Proof.
  intros H. revert suites.
  induction H as [|run l Hne _ IH]; intros suites; [reflexivity|].
  simpl. rewrite IH. unfold register_suite.
  destruct (add_expectations rt [] (Suite.expectations (Run.suite run)));
    [|reflexivity].
  now apply lookup_insert_ne.
Qed.

(** The suite stored under a name is that of the last run of the name. *)
Lemma register_suite_last suites pre run post suite :
  add_expectations rt [] (Suite.expectations (Run.suite run)) = Ok suite ->
  Forall (fun r => Suite.name (Run.suite r) <> Suite.name (Run.suite run))
         post ->
  fold_left (register_suite rt) (pre ++ run :: post) suites
    !! Suite.name (Run.suite run) = Some suite.
Proof.
  intros Hs Hpost. rewrite fold_left_app. simpl.
  rewrite (register_suite_other _ post _ Hpost).
  unfold register_suite at 1. rewrite Hs. apply lookup_insert_eq.
Qed.

End SuitesOfTheContext.

(** X22. [build_validations] builds the suite of a run in the context
    each time it handles a data asset of that run, and touches nothing else
    of the context.  When it returns, the name of the suite of every run
    that has a data asset holds the configurations the runtime made of the
    expectations of the last such run of that name (two runs that share a
    suite name leave only the later suite).  Whether it returns or raises,
    a suite name used by no run that has a data asset is as it was (so a
    run without data assets stores nothing), and the checkpoints are
    unchanged. *)
Theorem build_validations_stores_suites
    (rt : Runtime) (context : Context) (data_source : Datasource)
    (jobs : selection) :
  (snd (build_validations rt context data_source jobs) = Ok tt ->
   forall pre run post,
     asset_runs (normalize_jobs jobs) = pre ++ run :: post ->
     Forall (fun r => Suite.name (Run.suite r) <> Suite.name (Run.suite run))
            post ->
     exists suite,
       add_expectations rt [] (Suite.expectations (Run.suite run)) = Ok suite
       /\ ctx_suites (bs_context
                        (fst (build_validations rt context data_source jobs)))
            !! Suite.name (Run.suite run) = Some suite)
  /\ (forall k,
        (forall run, In run (asset_runs (normalize_jobs jobs)) ->
                     Suite.name (Run.suite run) <> k) ->
        ctx_suites (bs_context
                      (fst (build_validations rt context data_source jobs)))
          !! k
        = ctx_suites context !! k)
  /\ ctx_checkpoints (bs_context
                        (fst (build_validations rt context data_source jobs)))
     = ctx_checkpoints context.
Proof.
  unfold build_validations. split; [|split].
  - intros Hok pre run post Hruns Hpost.
    destruct (validate_jobs_Ok rt (mkBuildState context data_source [])
                (normalize_jobs jobs) Hok) as (_ & _ & Hs & Hall).
    assert (Hin : In run (asset_runs (normalize_jobs jobs))).
    { rewrite Hruns. apply in_or_app. right. now left. }
    destruct (asset_runs_inv _ _ Hin) as (job & Hjob & Hrun & Hne).
    pose proof (proj1 (List.Forall_forall _ _) Hall job Hjob) as Hj.
    pose proof (proj1 (List.Forall_forall _ _) Hj run Hrun Hne) as Hacc.
    destruct (add_expectations rt [] (Suite.expectations (Run.suite run)))
      as [suite|] eqn:Hsuite; [|discriminate].
    exists suite. split; [reflexivity|].
    rewrite Hs, Hruns. now apply register_suite_last.
  - intros k Hne. now apply (validate_jobs_other_suites rt).
  - apply (validate_jobs_checkpoints rt).
Qed.

Lemma build_validations_stores_suites_witness :
  let doc := DataAsset.mk "way4.doc" "select 1" in
  let exists_id := Expectation.mk "expect_column_to_exist"
                     [("column", YStr "id")] in
  let exists_name := Expectation.mk "expect_column_to_exist"
                       [("column", YStr "name")] in
  let first := Run.mk [doc] (Suite.mk "basic_suite" [exists_id]) in
  let unused := Run.mk [] (Suite.mk "unused_suite" [exists_id]) in
  let last := Run.mk [doc] (Suite.mk "basic_suite" [exists_name]) in
  let job := Job.mk "daily_recon" [first; unused; last] None in
  let st := fst (build_validations Sample.rt_strict (mkContext ∅ ∅)
                   (mkDatasource "staging" "postgresql://db/staging" ∅)
                   (OneJob job)) in
  ctx_suites (bs_context st) !! "basic_suite" = Some [exists_name]
  /\ ctx_suites (bs_context st) !! "unused_suite" = None.
Proof.
  intros doc exists_id exists_name first unused last job st.
  destruct (build_validations_stores_suites Sample.rt_strict (mkContext ∅ ∅)
              (mkDatasource "staging" "postgresql://db/staging" ∅)
              (OneJob job)) as (Hreg & Hother & _).
  split.
  - destruct (Hreg eq_refl [first] last [] eq_refl ltac:(constructor))
      as (suite & Hs & Hl).
    subst st. simpl in Hl. rewrite Hl. f_equal.
    vm_compute in Hs. now injection Hs as <-.
  - subst st. rewrite (Hother "unused_suite"); [reflexivity|].
    intros run [<-|[<-|[]]]; discriminate.
Defined.
